(** * Outreach message generator: a shallow embedding of
      [tools/outreach_generator.py] and the properties of its
      referral hash, URL builder, prompt composer, response
      interpreter, command line and output writer. *)

From Stdlib Require Import ZArith List Bool Lia.
From Stdlib Require Import Strings.Ascii Strings.String DecimalString.
Import ListNotations.

Local Open Scope string_scope.
Local Open Scope Z_scope.

(** ** Python strings

    A Python [str] is modelled as a [string] whose characters are the code
    points 0..255 (the Latin-1 range); a [bytes] value is a list of
    octets held in [Z]. *)

Module Py.

Definition code (c : ascii) : Z := Z.of_nat (nat_of_ascii c).
Definition chr (n : Z) : ascii := ascii_of_nat (Z.to_nat n).

(** The double quote, the line feed and the backtick. *)
Definition dquote : ascii := "034"%char.
Definition lf : ascii := "010"%char.
Definition backtick : ascii := "096"%char.
Definition dq : string := String dquote "".
Definition nl : string := String lf "".

(** [str.lower] on one code point: in Latin-1 the cased letters are
    A-Z, 0xC0-0xD6 and 0xD8-0xDE, each 32 below its lowercase form. *)
Definition lower_char (c : ascii) : ascii :=
  let n := code c in
  if ((65 <=? n) && (n <=? 90)) || ((192 <=? n) && (n <=? 214))
     || ((216 <=? n) && (n <=? 222))
  then chr (n + 32) else c.

Fixpoint lower (s : string) : string :=
  match s with
  | "" => ""
  | String c r => String (lower_char c) (lower r)
  end.

(** [s.replace(old, new)] for a one-character [old]. *)
Fixpoint replace (old : ascii) (new : string) (s : string) : string :=
  match s with
  | "" => ""
  | String c r =>
      if Ascii.eqb c old then new ++ replace old new r
      else String c (replace old new r)
  end.

(** [str.encode()]: UTF-8, two octets for a code point above 0x7F. *)
Fixpoint encode (s : string) : list Z :=
  match s with
  | "" => []
  | String c r =>
      let n := code c in
      if n <? 128 then n :: encode r
      else Z.lor 192 (Z.shiftr n 6) :: Z.lor 128 (Z.land n 63) :: encode r
  end.

(** [s[:k]] for a non-negative [k]. *)
Definition take (k : nat) (s : string) : string := substring 0 k s.

Fixpoint drop (k : nat) (s : string) : string :=
  match k, s with
  | O, _ => s
  | S _, "" => ""
  | S k', String _ r => drop k' r
  end.

(** [s[i:j]] with Python's treatment of negative and oversized bounds. *)
Definition clamp (len i : Z) : Z :=
  if i <? 0 then Z.max 0 (len + i) else Z.min i len.

Definition slice (i j : Z) (s : string) : string :=
  let len := Z.of_nat (String.length s) in
  let lo := clamp len i in
  let hi := clamp len j in
  take (Z.to_nat (hi - lo)) (drop (Z.to_nat lo) s).

(** [s.find(sub, start)] for [0 <= start]: the least index at or after
    [start] where [sub] occurs, or -1. *)
Fixpoint find_from (sub s : string) (pos : Z) : Z :=
  if prefix sub s then pos
  else match s with
       | "" => -1
       | String _ r => find_from sub r (pos + 1)
       end.

Definition find (sub s : string) (start : Z) : Z :=
  if Z.of_nat (String.length s) <? start then -1
  else find_from sub (drop (Z.to_nat start) s) start.

(** [sub in s]. *)
Definition contains (sub s : string) : bool := 0 <=? find sub s 0.

(** [str.isspace] on one code point of the Latin-1 range. *)
Definition is_space (c : ascii) : bool :=
  let n := code c in
  ((9 <=? n) && (n <=? 13)) || ((28 <=? n) && (n <=? 32))
  || (n =? 133) || (n =? 160).

Fixpoint lstrip (s : string) : string :=
  match s with
  | "" => ""
  | String c r => if is_space c then lstrip r else s
  end.

Fixpoint rstrip (s : string) : string :=
  match s with
  | "" => ""
  | String c r =>
      match rstrip r with
      | "" => if is_space c then "" else String c ""
      | r' => String c r'
      end
  end.

Definition strip (s : string) : string := lstrip (rstrip s).

(** Truthiness of an [Optional[str]]: [None] and the empty string are
    both falsy. *)
Definition truthy (o : option string) : bool :=
  match o with
  | Some (String _ _) => true
  | _ => false
  end.

(** [o or default] for an [Optional[str]]. *)
Definition or_else (o : option string) (default : string) : string :=
  match o with
  | Some (String c r) => String c r
  | _ => default
  end.

End Py.

(** ** MD5 (RFC 1321), as [hashlib.md5(data).hexdigest()] computes it *)

Module MD5.

Definition w32 (x : Z) : Z := x mod 2 ^ 32.
Definition not32 (x : Z) : Z := Z.lxor x 0xffffffff.
Definition rotl32 (x s : Z) : Z :=
  w32 (Z.lor (Z.shiftl x s) (Z.shiftr x (32 - s))).

Definition K : list Z :=
  [ 0xd76aa478; 0xe8c7b756; 0x242070db; 0xc1bdceee;
    0xf57c0faf; 0x4787c62a; 0xa8304613; 0xfd469501;
    0x698098d8; 0x8b44f7af; 0xffff5bb1; 0x895cd7be;
    0x6b901122; 0xfd987193; 0xa679438e; 0x49b40821;
    0xf61e2562; 0xc040b340; 0x265e5a51; 0xe9b6c7aa;
    0xd62f105d; 0x02441453; 0xd8a1e681; 0xe7d3fbc8;
    0x21e1cde6; 0xc33707d6; 0xf4d50d87; 0x455a14ed;
    0xa9e3e905; 0xfcefa3f8; 0x676f02d9; 0x8d2a4c8a;
    0xfffa3942; 0x8771f681; 0x6d9d6122; 0xfde5380c;
    0xa4beea44; 0x4bdecfa9; 0xf6bb4b60; 0xbebfbc70;
    0x289b7ec6; 0xeaa127fa; 0xd4ef3085; 0x04881d05;
    0xd9d4d039; 0xe6db99e5; 0x1fa27cf8; 0xc4ac5665;
    0xf4292244; 0x432aff97; 0xab9423a7; 0xfc93a039;
    0x655b59c3; 0x8f0ccc92; 0xffeff47d; 0x85845dd1;
    0x6fa87e4f; 0xfe2ce6e0; 0xa3014314; 0x4e0811a1;
    0xf7537e82; 0xbd3af235; 0x2ad7d2bb; 0xeb86d391 ].

Definition R : list Z :=
  [ 7; 12; 17; 22; 7; 12; 17; 22; 7; 12; 17; 22; 7; 12; 17; 22;
    5; 9; 14; 20; 5; 9; 14; 20; 5; 9; 14; 20; 5; 9; 14; 20;
    4; 11; 16; 23; 4; 11; 16; 23; 4; 11; 16; 23; 4; 11; 16; 23;
    6; 10; 15; 21; 6; 10; 15; 21; 6; 10; 15; 21; 6; 10; 15; 21 ].

Definition state : Type := Z * Z * Z * Z.

Definition init : state := (0x67452301, 0xefcdab89, 0x98badcfe, 0x10325476).

Definition at_ (l : list Z) (i : Z) : Z := nth (Z.to_nat i) l 0.

(** One of the 64 operations on the working registers. *)
Definition step (M : list Z) (st : state) (i : Z) : state :=
  let '(a, b, c, d) := st in
  let '(f, g) :=
    if i <? 16 then (Z.lor (Z.land b c) (Z.land (not32 b) d), i)
    else if i <? 32 then
      (Z.lor (Z.land d b) (Z.land (not32 d) c), (5 * i + 1) mod 16)
    else if i <? 48 then (Z.lxor b (Z.lxor c d), (3 * i + 5) mod 16)
    else (Z.lxor c (Z.lor b (not32 d)), (7 * i) mod 16) in
  let f' := w32 (f + a + at_ K i + at_ M g) in
  (d, w32 (b + rotl32 f' (at_ R i)), b, c).

Definition rounds : list Z := map Z.of_nat (seq 0 64).

Definition add_state (s t : state) : state :=
  let '(a, b, c, d) := s in
  let '(a', b', c', d') := t in
  (w32 (a + a'), w32 (b + b'), w32 (c + c'), w32 (d + d')).

(** Little-endian words of a block of octets. *)
Fixpoint words (bs : list Z) : list Z :=
  match bs with
  | b0 :: b1 :: b2 :: b3 :: r =>
      (b0 + 256 * b1 + 65536 * b2 + 16777216 * b3) :: words r
  | _ => []
  end.

Definition compress (st : state) (block : list Z) : state :=
  add_state st (fold_left (step (words block)) rounds st).

Definition le_bytes (n : nat) (x : Z) : list Z :=
  map (fun k => (x / 256 ^ Z.of_nat k) mod 256) (seq 0 n).

(** The message followed by 0x80, zeros up to 56 modulo 64, and the bit
    length on eight octets. *)
Definition pad (msg : list Z) : list Z :=
  let len := Z.of_nat (List.length msg) in
  let zeros := (55 - len) mod 64 in
  msg ++ 128 :: repeat 0 (Z.to_nat zeros)
      ++ le_bytes 8 ((8 * len) mod 2 ^ 64).

Fixpoint blocks (fuel : nat) (bs : list Z) (st : state) : state :=
  match fuel, bs with
  | S fuel', _ :: _ => blocks fuel' (skipn 64 bs) (compress st (firstn 64 bs))
  | _, _ => st
  end.

Definition md5 (msg : list Z) : state :=
  let p := pad msg in blocks (List.length p) p init.

Definition digest (st : state) : list Z :=
  let '(a, b, c, d) := st in
  le_bytes 4 a ++ le_bytes 4 b ++ le_bytes 4 c ++ le_bytes 4 d.

Definition hex_digit (n : Z) : ascii :=
  match String.get (Z.to_nat (n mod 16)) "0123456789abcdef" with
  | Some c => c
  | None => "0"%char
  end.

Definition hex_byte (b : Z) : string :=
  String (hex_digit (b / 16)) (String (hex_digit b) "").

Fixpoint hex (bs : list Z) : string :=
  match bs with
  | [] => ""
  | b :: r => hex_byte b ++ hex r
  end.

Definition hexdigest (msg : list Z) : string := hex (digest (md5 msg)).

End MD5.

(** ** Referral hash and URL builder *)

Definition clean_name (name : string) : string :=
  Py.replace "'" "" (Py.replace " " "-" (Py.lower name)).

Definition generate_referral_hash (name : string) : string :=
  let clean := clean_name name in
  let hash_suffix := Py.take 2 (MD5.hexdigest (Py.encode clean)) in
  let prefix := Py.take 2 clean in
  prefix ++ hash_suffix.

Definition default_base_url : string := "jam.audiolux.app".

Definition is_lower_hex (c : ascii) : bool :=
  let n := Py.code c in
  ((48 <=? n) && (n <=? 57)) || ((97 <=? n) && (n <=? 102)).

Definition build_persona_url (persona_code referral_hash base_url : string)
  : string :=
  base_url ++ "?v=" ++ persona_code ++ "&r=" ++ referral_hash.

(** ** JSON values and [json.loads]

    The decoder follows CPython's [json.decoder] and [json.scanner]: a
    recursive descent over the text, strict about control characters in
    strings, joining surrogate pairs written as two escapes, accepting
    [NaN], [Infinity] and [-Infinity].  A decoded
    string is a list of code points, since a [\uXXXX] escape reaches beyond
    the Latin-1 range; an integer is a [Z]; a float is kept as the literal
    it was read from.   Python's limits on the
    nesting depth and on the number of digits of an integer are left
    out. *)

Inductive json : Type :=
| JNull
| JBool (b : bool)
| JInt (n : Z)
| JFloat (literal : string)
| JStr (s : list Z)
| JArr (items : list json)
| JObj (pairs : list (list Z * json)).

Module Json.

Definition ustr (s : string) : list Z :=
  map Py.code (list_ascii_of_string s).

Fixpoint key_eqb (a b : list Z) : bool :=
  match a, b with
  | [], [] => true
  | x :: a', y :: b' => (x =? y) && key_eqb a' b'
  | _, _ => false
  end.

(** [d[k] = v] on an insertion-ordered dict. *)
Fixpoint dict_set (k : list Z) (v : json) (d : list (list Z * json))
  : list (list Z * json) :=
  match d with
  | [] => [(k, v)]
  | (k', v') :: d' =>
      if key_eqb k k' then (k', v) :: d' else (k', v') :: dict_set k v d'
  end.

Definition is_ws (c : ascii) : bool :=
  let n := Py.code c in (n =? 32) || (n =? 9) || (n =? 10) || (n =? 13).

Fixpoint skip_ws (s : string) : string :=
  match s with
  | "" => ""
  | String c r => if is_ws c then skip_ws r else s
  end.

Definition is_digit (c : ascii) : bool :=
  let n := Py.code c in (48 <=? n) && (n <=? 57).

Definition hex_val (c : ascii) : option Z :=
  let n := Py.code c in
  if (48 <=? n) && (n <=? 57) then Some (n - 48)
  else if (97 <=? n) && (n <=? 102) then Some (n - 87)
  else if (65 <=? n) && (n <=? 70) then Some (n - 55)
  else None.

Definition escape (c : ascii) : option Z :=
  let n := Py.code c in
  if (n =? 34) || (n =? 92) || (n =? 47) then Some n
  else if n =? 98 then Some 8
  else if n =? 102 then Some 12
  else if n =? 110 then Some 10
  else if n =? 114 then Some 13
  else if n =? 116 then Some 9
  else None.

Definition push (u : Z) (k : option (list Z * string))
  : option (list Z * string) :=
  match k with
  | Some (us, r) => Some (u :: us, r)
  | None => None
  end.

Definition is_high (u : Z) : bool := (0xd800 <=? u) && (u <=? 0xdbff).
Definition is_low (u : Z) : bool := (0xdc00 <=? u) && (u <=? 0xdfff).
Definition join_surrogates (u u2 : Z) : Z :=
  0x10000 + (1024 * (u - 0xd800) + (u2 - 0xdc00)).

(** Where the string scanner stands: between escapes, after a backslash,
    inside the hex digits of a [\u] escape, and the same three after a
    high surrogate that may still be joined with a low one. *)
Inductive str_state : Type :=
| Plain
| Escaped
| Hex (k : nat) (acc : Z)
| High (u : Z)
| HighEscaped (u : Z)
| HighHex (u : Z) (k : nat) (acc : Z).

(** The body of a string literal, read one character at a time; returns
    the decoded code points and the text after the closing quote. *)
Fixpoint scan_string_from (st : str_state) (s : string)
  : option (list Z * string) :=
  match s with
  | "" => None
  | String c r =>
      let n := Py.code c in
      match st with
      | Plain =>
          if n =? 34 then Some ([], r)
          else if n =? 92 then scan_string_from Escaped r
          else if n <=? 31 then None
          else push n (scan_string_from Plain r)
      | Escaped =>
          if n =? 117 then scan_string_from (Hex 4 0) r
          else match escape c with
               | Some e => push e (scan_string_from Plain r)
               | None => None
               end
      | Hex k acc =>
          match hex_val c, k with
          | Some d, S O =>
              let u := 16 * acc + d in
              if is_high u then scan_string_from (High u) r
              else push u (scan_string_from Plain r)
          | Some d, S k' => scan_string_from (Hex k' (16 * acc + d)) r
          | _, _ => None
          end
      | High u =>
          if n =? 34 then Some ([u], r)
          else if n =? 92 then scan_string_from (HighEscaped u) r
          else if n <=? 31 then None
          else push u (push n (scan_string_from Plain r))
      | HighEscaped u =>
          if n =? 117 then scan_string_from (HighHex u 4 0) r
          else match escape c with
               | Some e => push u (push e (scan_string_from Plain r))
               | None => None
               end
      | HighHex u k acc =>
          match hex_val c, k with
          | Some d, S O =>
              let u2 := 16 * acc + d in
              if is_low u2 then
                push (join_surrogates u u2) (scan_string_from Plain r)
              else if is_high u2 then push u (scan_string_from (High u2) r)
              else push u (push u2 (scan_string_from Plain r))
          | Some d, S k' => scan_string_from (HighHex u k' (16 * acc + d)) r
          | _, _ => None
          end
      end
  end.

(** From just after the opening quote. *)
Definition scan_string (s : string) : option (list Z * string) :=
  scan_string_from Plain s.

(** [match_lit lit s]: the text after [lit] when [s] starts with it. *)
Fixpoint match_lit (lit s : string) : option string :=
  match lit, s with
  | "", _ => Some s
  | String a lit', String c r =>
      if Ascii.eqb a c then match_lit lit' r else None
  | String _ _, "" => None
  end.

Fixpoint span_digits (s : string) : string * string :=
  match s with
  | "" => ("", "")
  | String c r =>
      if is_digit c then
        let '(d, r') := span_digits r in (String c d, r')
      else ("", s)
  end.

Fixpoint digits_value (acc : Z) (d : string) : Z :=
  match d with
  | "" => acc
  | String c r => digits_value (10 * acc + (Py.code c - 48)) r
  end.

(** The integer part [0|[1-9][0-9]*]. *)
Definition scan_int (s : string) : option (string * string) :=
  match s with
  | "" => None
  | String c r =>
      if Py.code c =? 48 then Some ("0", r)
      else if is_digit c then
        let '(d, r') := span_digits r in Some (String c d, r')
      else None
  end.

(** The optional fraction [\.[0-9]+]. *)
Definition scan_frac (s : string) : string * string :=
  match s with
  | String c r =>
      if Py.code c =? 46 then
        match span_digits r with
        | ("", _) => ("", s)
        | (d, r') => (String c d, r')
        end
      else ("", s)
  | "" => ("", s)
  end.

(** The optional exponent [[eE][-+]?[0-9]+]. *)
Definition scan_exp (s : string) : string * string :=
  match s with
  | String c r =>
      if (Py.code c =? 101) || (Py.code c =? 69) then
        match r with
        | String g r1 =>
            if (Py.code g =? 45) || (Py.code g =? 43) then
              match span_digits r1 with
              | ("", _) => ("", s)
              | (d, r') => (String c (String g d), r')
              end
            else
              match span_digits r with
              | ("", _) => ("", s)
              | (d, r') => (String c d, r')
              end
        | "" => ("", s)
        end
      else ("", s)
  | "" => ("", s)
  end.

(** The optional sign [-?]. *)
Definition sign_split (s : string) : bool * string :=
  match s with
  | String c r => if Py.code c =? 45 then (true, r) else (false, s)
  | "" => (false, s)
  end.

Definition match_number (s : string) : option (json * string) :=
  let '(neg, s1) := sign_split s in
  match scan_int s1 with
  | None => None
  | Some (ds, s2) =>
      let '(frac, s3) := scan_frac s2 in
      let '(exp, s4) := scan_exp s3 in
      match frac, exp with
      | "", "" =>
          Some (JInt (if neg then - digits_value 0 ds else digits_value 0 ds),
                s4)
      | _, _ =>
          Some (JFloat ((if neg then "-" else "") ++ ds ++ frac ++ exp), s4)
      end
  end.

Definition lit_value (lit : string) (v : json) (s : string)
  : option (json * string) :=
  match match_lit lit s with
  | Some r => Some (v, r)
  | None => None
  end.

Definition first_of {A} (a b : option A) : option A :=
  match a with Some _ => a | None => b end.

(** The values that are neither strings, objects nor arrays, in the order
    the scanner tries them. *)
Definition scan_atom (s : string) : option (json * string) :=
  first_of (lit_value "null" JNull s)
 (first_of (lit_value "true" (JBool true) s)
 (first_of (lit_value "false" (JBool false) s)
 (first_of (match_number s)
 (first_of (lit_value "NaN" (JFloat "NaN") s)
 (first_of (lit_value "Infinity" (JFloat "Infinity") s)
           (lit_value "-Infinity" (JFloat "-Infinity") s)))))).

(** [scan_once] with the array and object loops it calls; [fuel] bounds
    the depth of the mutual recursion. *)
Fixpoint scan_once (fuel : nat) (s : string) : option (json * string) :=
  match fuel with
  | O => None
  | S f =>
      match s with
      | "" => None
      | String c r =>
          if Py.code c =? 34 then
            match scan_string r with
            | Some (u, r') => Some (JStr u, r')
            | None => None
            end
          else if Py.code c =? 123 then
            match skip_ws r with
            | String q r1 =>
                if Py.code q =? 34 then object_items f r1 []
                else if Py.code q =? 125 then Some (JObj [], r1)
                else None
            | "" => None
            end
          else if Py.code c =? 91 then
            match skip_ws r with
            | String q r1 =>
                if Py.code q =? 93 then Some (JArr [], r1)
                else array_items f (String q r1) []
            | "" => None
            end
          else scan_atom (String c r)
      end
  end

with array_items (fuel : nat) (s : string) (acc : list json)
  : option (json * string) :=
  match fuel with
  | O => None
  | S f =>
      match scan_once f s with
      | None => None
      | Some (v, r) =>
          match skip_ws r with
          | String c r1 =>
              if Py.code c =? 93 then Some (JArr (acc ++ [v]), r1)
              else if Py.code c =? 44 then
                array_items f (skip_ws r1) (acc ++ [v])
              else None
          | "" => None
          end
      end
  end

with object_items (fuel : nat) (s : string) (acc : list (list Z * json))
  : option (json * string) :=
  match fuel with
  | O => None
  | S f =>
      match scan_string s with
      | None => None
      | Some (key, r) =>
          match skip_ws r with
          | String c r1 =>
              if Py.code c =? 58 then
                match scan_once f (skip_ws r1) with
                | None => None
                | Some (v, r2) =>
                    let acc' := dict_set key v acc in
                    match skip_ws r2 with
                    | String d r3 =>
                        if Py.code d =? 125 then Some (JObj acc', r3)
                        else if Py.code d =? 44 then
                          match skip_ws r3 with
                          | String q r4 =>
                              if Py.code q =? 34 then object_items f r4 acc'
                              else None
                          | "" => None
                          end
                        else None
                    | "" => None
                    end
                end
              else None
          | "" => None
          end
      end
  end.

Definition fuel_for (s : string) : nat := (2 * String.length s + 2)%nat.

(** [json.loads(s)]: [None] stands for [json.JSONDecodeError]. *)
Definition loads (s : string) : option json :=
  match scan_once (fuel_for s) (skip_ws s) with
  | Some (v, r) =>
      match skip_ws r with
      | "" => Some v
      | String _ _ => None
      end
  | None => None
  end.

End Json.

Definition three_keys : string :=
  "{" ++ Py.dq ++ "friendly" ++ Py.dq ++ ":" ++ Py.dq ++ "a" ++ Py.dq ++ ","
      ++ Py.dq ++ "professional" ++ Py.dq ++ ":" ++ Py.dq ++ "b" ++ Py.dq ++ ","
      ++ Py.dq ++ "brief" ++ Py.dq ++ ":" ++ Py.dq ++ "c" ++ Py.dq ++ "}".

Definition three_messages : json :=
  JObj [ (Json.ustr "friendly", JStr (Json.ustr "a"));
         (Json.ustr "professional", JStr (Json.ustr "b"));
         (Json.ustr "brief", JStr (Json.ustr "c")) ].

(** ** Errors and results *)

Inductive error : Type :=
| ValueError (msg : string)
    (** [ValueError(msg)]; [str(e)] is [msg]. *)
| JSONDecodeError
    (** raised by [json.loads]; [str(e)] is a reason followed by a line, a
        column and a character offset, and does not quote the document. *)
| APIError (msg : string)
    (** whatever [client.messages.create] raises. *)
| OSError (msg : string)
| AttributeError (msg : string).

Inductive result (A : Type) : Type :=
| Ok (a : A)
| Raise (e : error).

Arguments Ok {A} a.
Arguments Raise {A} e.

(** ** Personas *)

Record persona_info : Type := { title : string; focus : string }.

Definition PERSONAS : list (string * persona_info) :=
  [ ("m", {| title := "Musician"; focus := "Browser-based music creation" |});
    ("d", {| title := "Deaf/HOH Person";
             focus := "Music for everyone. No hearing required." |});
    ("e", {| title := "Educator"; focus := "Teach music visually" |});
    ("v", {| title := "Visual Learner"; focus := "Music for visual thinkers" |});
    ("p", {| title := "Producer/Beatmaker";
             focus := "Professional DAW in browser" |});
    ("i", {| title := "Enterprise/Institution";
             focus := "Scalable accessible music education" |}) ].

Fixpoint lookup {A} (k : string) (d : list (string * A)) : option A :=
  match d with
  | [] => None
  | (k', v) :: d' => if String.eqb k k' then Some v else lookup k d'
  end.

Definition keys {A} (d : list (string * A)) : list string := map fst d.

(** [str(list_of_str)] for keys free of quotes and escapes. *)
Definition repr_keys (ks : list string) : string :=
  "[" ++ String.concat ", " (map (fun k => "'" ++ k ++ "'") ks) ++ "]".

(** ** Prompt composer *)

Definition not_provided : string := "Not provided".

Definition prompt_lines (target_name platform : string)
    (bio recent_content : option string) (persona : persona_info)
    (persona_url : string) : list string :=
    [ "Generate 3 personalized outreach messages for a product-led growth campaign.";
      "";
      "TARGET PROFILE:";
      "- Name: " ++ target_name;
      "- Platform: " ++ platform;
      "- Bio: " ++ Py.or_else bio not_provided;
      "- Recent Content: " ++ Py.or_else recent_content not_provided;
      "";
      "PRODUCT: Audiolux";
      "- Description: Browser-based visual music creation platform";
      "- Key Feature: No installation, accessible for Deaf/HOH users, real-time collaboration";
      "- Persona Focus: " ++ title persona ++ " - " ++ focus persona;
      "- URL: " ++ persona_url;
      "";
      "REQUIREMENTS:";
      "1. Reference the target's specific work (if bio/content provided)";
      "2. Keep messages authentic and non-salesy";
      "3. Highlight value for their specific persona (" ++ title persona ++ ")";
      "4. Include the persona URL naturally";
      "5. Adapt tone to the platform (" ++ platform ++ ")";
      "";
      "Generate 3 variations:";
      "";
      "**Friendly**: Warm, conversational, personal connection";
      "**Professional**: Respectful, concise, value-focused";
      "**Brief**: Very short, attention-grabbing, direct";
      "";
      "Return ONLY a valid JSON object with this exact structure:";
      "{";
      "  " ++ Py.dq ++ "friendly" ++ Py.dq ++ ": " ++ Py.dq ++ "message text here" ++ Py.dq ++ ",";
      "  " ++ Py.dq ++ "professional" ++ Py.dq ++ ": " ++ Py.dq ++ "message text here" ++ Py.dq ++ ",";
      "  " ++ Py.dq ++ "brief" ++ Py.dq ++ ": " ++ Py.dq ++ "message text here" ++ Py.dq;
      "}";
      "";
      "Do not include any markdown formatting, code blocks, or additional text." ].

Definition compose_prompt (target_name platform : string)
    (bio recent_content : option string) (persona : persona_info)
    (persona_url : string) : string :=
  String.concat Py.nl
    (prompt_lines target_name platform bio recent_content persona persona_url).

(** ** Response interpreter *)

Definition fence : string := "```".
Definition marker : string := "```json".

Definition format_error (response_text : string) : error :=
  ValueError ("Failed to parse Claude response as JSON:" ++ Py.nl ++ response_text).

(** The text between the marker and the next fence, stripped. *)
Definition extract (response_text : string) : string :=
  let json_start := Py.find marker response_text 0 + 7 in
  let json_end := Py.find fence response_text json_start in
  Py.strip (Py.slice json_start json_end response_text).

(** The [try]/[except] around [json.loads]: the texts handed to
    [json.loads], in order, and what the block yields. *)
Definition parse_response (response_text : string)
  : list string * result json :=
  match Json.loads response_text with
  | Some messages => ([response_text], Ok messages)
  | None =>
      if Py.contains marker response_text then
        let response_text' := extract response_text in
        match Json.loads response_text' with
        | Some messages => ([response_text; response_text'], Ok messages)
        | None => ([response_text; response_text'], Raise JSONDecodeError)
        end
      else ([response_text], Raise (format_error response_text))
  end.


(** ** External model client and [generate_outreach_messages] *)

Record request : Type := {
  req_api_key : string;
  req_model : string;
  req_max_tokens : Z;
  req_prompt : string
}.

Inductive api_reply : Type :=
| Reply (text : string)
| Failure (msg : string).

(** What the process sees of its surroundings: the credential variable
    and the hosted model, which answers a request or fails. *)
Record world : Type := {
  env_api_key : option string;
  service : request -> api_reply
}.

Record outreach_result : Type := {
  target : string;
  persona : string;
  platform : string;
  referral_hash : string;
  url : string;
  messages : json
}.

Definition missing_credential : error :=
  ValueError "ANTHROPIC_API_KEY environment variable not set".

Definition invalid_persona (persona_code : string) : error :=
  ValueError ("Invalid persona code: " ++ persona_code ++ ". Must be one of: "
              ++ repr_keys (keys PERSONAS)).

(** Returns the requests sent to the service, in order, with the result. *)
Definition generate_outreach_messages (w : world)
    (target_name persona_code platform : string)
    (bio recent_content api_key : option string)
  : list request * result outreach_result :=
  let api_key := if Py.truthy api_key then api_key else env_api_key w in
  match api_key with
  | Some (String k0 k) =>
      let api_key := String k0 k in
      match lookup persona_code PERSONAS with
      | None => ([], Raise (invalid_persona persona_code))
      | Some persona =>
          let referral_hash := generate_referral_hash target_name in
          let persona_url :=
            build_persona_url persona_code referral_hash default_base_url in
          let prompt :=
            compose_prompt target_name platform bio recent_content persona
                           persona_url in
          let req := {| req_api_key := api_key;
                        req_model := "claude-sonnet-4-20250514";
                        req_max_tokens := 1024;
                        req_prompt := prompt |} in
          match service w req with
          | Failure msg => ([req], Raise (APIError msg))
          | Reply text =>
              let response_text := Py.strip text in
              match snd (parse_response response_text) with
              | Raise e => ([req], Raise e)
              | Ok messages =>
                  ([req], Ok {| target := target_name;
                                persona := persona_code;
                                platform := platform;
                                referral_hash := referral_hash;
                                url := persona_url;
                                messages := messages |})
              end
          end
      end
  | _ => ([], Raise missing_credential)
  end.

Definition fenced (j : string) : string :=
  marker ++ Py.nl ++ j ++ Py.nl ++ fence.


(** A JSON object whose one value holds three backticks. *)
Definition fence_inside : string :=
  "{" ++ Py.dq ++ "friendly" ++ Py.dq ++ ":" ++ Py.dq ++ "a```b" ++ Py.dq ++ "}".

(** ** [json.dump(obj, f, indent=2)]

    The text written for a value: two-space indentation, [","] between
    items, [": "] after a key, every character outside the printable ASCII
    range escaped.  A float is written by [float.__repr__], which is taken
    as a parameter on the literal the float was read from. *)

Section Runtime.

Variable float_repr : string -> string.

Definition hex4_of (n : Z) : string :=
  String (MD5.hex_digit (n / 4096)) (String (MD5.hex_digit (n / 256))
    (String (MD5.hex_digit (n / 16)) (String (MD5.hex_digit n) ""))).

Definition escape_char (n : Z) : string :=
  if n =? 34 then "\" ++ Py.dq
  else if n =? 92 then "\\"
  else if n =? 10 then "\n"
  else if n =? 13 then "\r"
  else if n =? 9 then "\t"
  else if n =? 8 then "\b"
  else if n =? 12 then "\f"
  else if (32 <=? n) && (n <=? 126) then String (Py.chr n) ""
  else if n <? 65536 then "\u" ++ hex4_of n
  else
    let m := n - 65536 in
    "\u" ++ hex4_of (Z.lor 0xd800 (Z.land (Z.shiftr m 10) 0x3ff))
         ++ "\u" ++ hex4_of (Z.lor 0xdc00 (Z.land m 0x3ff)).

Definition encode_string (s : list Z) : string :=
  Py.dq ++ String.concat "" (map escape_char s) ++ Py.dq.

Definition int_repr (n : Z) : string := NilEmpty.string_of_int (Z.to_int n).

Fixpoint spaces (n : nat) : string :=
  match n with
  | O => ""
  | S n' => String " " (spaces n')
  end.

Definition newline_indent (level : nat) : string :=
  Py.nl ++ spaces (2 * level).

Fixpoint dumps (level : nat) (v : json) : string :=
  match v with
  | JNull => "null"
  | JBool true => "true"
  | JBool false => "false"
  | JInt n => int_repr n
  | JFloat literal => float_repr literal
  | JStr s => encode_string s
  | JArr [] => "[]"
  | JArr items =>
      "[" ++ newline_indent (S level)
          ++ String.concat ("," ++ newline_indent (S level))
               (map (dumps (S level)) items)
          ++ newline_indent level ++ "]"
  | JObj [] => "{}"
  | JObj pairs =>
      "{" ++ newline_indent (S level)
          ++ String.concat ("," ++ newline_indent (S level))
               (map (fun kv => encode_string (fst kv) ++ ": "
                               ++ dumps (S level) (snd kv)) pairs)
          ++ newline_indent level ++ "}"
  end.

(** The result record as the dict [generate_outreach_messages] returns. *)
Definition result_dict (r : outreach_result) : json :=
  JObj [ (Json.ustr "target", JStr (Json.ustr (target r)));
         (Json.ustr "persona", JStr (Json.ustr (persona r)));
         (Json.ustr "platform", JStr (Json.ustr (platform r)));
         (Json.ustr "referral_hash", JStr (Json.ustr (referral_hash r)));
         (Json.ustr "url", JStr (Json.ustr (url r)));
         (Json.ustr "messages", messages r) ].

(** ** File system

    A tree of directories and regular files addressed by absolute lists of
    names, with a working directory; no symbolic links, no permissions. *)

Inductive node : Type :=
| File (content : string)
| Dir.

Definition path : Type := list string.

Record filesystem : Type := {
  cwd : path;
  nodes : path -> option node
}.

Fixpoint path_eqb (p q : path) : bool :=
  match p, q with
  | [], [] => true
  | a :: p', b :: q' => String.eqb a b && path_eqb p' q'
  | _, _ => false
  end.

Definition put (p : path) (n : node) (f : path -> option node)
  : path -> option node :=
  fun q => if path_eqb q p then Some n else f q.

(** The names of a path text, split at every slash. *)
Fixpoint components (s : string) : list string :=
  match s with
  | "" => [""]
  | String c r =>
      if Ascii.eqb c "/" then "" :: components r
      else match components r with
           | h :: t => String c h :: t
           | [] => [String c ""]
           end
  end.

(** [p[:i]] for [i = p.rfind('/') + 1]. *)
Fixpoint head_part (p : string) : string :=
  match p with
  | "" => ""
  | String c r =>
      match head_part r with
      | "" => if Ascii.eqb c "/" then "/" else ""
      | h => String c h
      end
  end.

Fixpoint all_slashes (s : string) : bool :=
  match s with
  | "" => true
  | String c r => Ascii.eqb c "/" && all_slashes r
  end.

Fixpoint rstrip_slashes (s : string) : string :=
  match s with
  | "" => ""
  | String c r =>
      match rstrip_slashes r with
      | "" => if Ascii.eqb c "/" then "" else String c ""
      | r' => String c r'
      end
  end.

(** [os.path.dirname] of [posixpath]. *)
Definition dirname (p : string) : string :=
  let head := head_part p in
  if all_slashes head then head else rstrip_slashes head.

Definition is_absolute (p : string) : bool :=
  match p with
  | String c _ => Ascii.eqb c "/"
  | "" => false
  end.

Definition start (fs : filesystem) (p : string) : path :=
  if is_absolute p then [] else cwd fs.

Definition stays (c : string) : bool := String.eqb c "" || String.eqb c ".".


(** Follow [names] from the directory [cur]; every directory passed
    through, the last included, must exist. *)
Fixpoint walk (f : path -> option node) (cur : path) (names : list string)
  : option path :=
  match f cur with
  | Some Dir =>
      match names with
      | [] => Some cur
      | c :: rest =>
          if stays c then walk f cur rest
          else if String.eqb c ".." then walk f (removelast cur) rest
          else walk f (cur ++ [c])%list rest
      end
  | _ => None
  end.

(** The directories of [names] below [cur], each created when absent. *)
Fixpoint mkdirs (f : path -> option node) (cur : path) (names : list string)
  : result (path -> option node) :=
  match names with
  | [] => Ok f
  | c :: rest =>
      if stays c then mkdirs f cur rest
      else if String.eqb c ".." then mkdirs f (removelast cur) rest
      else
        match f (cur ++ [c])%list with
        | Some Dir => mkdirs f (cur ++ [c])%list rest
        | Some (File _) => Raise (OSError "FileExistsError")
        | None => mkdirs (put (cur ++ [c])%list Dir f) (cur ++ [c])%list rest
        end
  end.

(** [os.makedirs(name, exist_ok=True)]. *)
Definition makedirs (name : string) (fs : filesystem) : result filesystem :=
  match name with
  | "" => Raise (OSError "FileNotFoundError")
  | _ =>
      match mkdirs (nodes fs) (start fs name) (components name) with
      | Ok f => Ok {| cwd := cwd fs; nodes := f |}
      | Raise e => Raise e
      end
  end.

(** [open(name, "w")] followed by one write of [content] and the close. *)
Definition open_write (name content : string) (fs : filesystem)
  : result filesystem :=
  match name with
  | "" => Raise (OSError "FileNotFoundError")
  | _ =>
      let names := components name in
      match walk (nodes fs) (start fs name) (removelast names) with
      | None => Raise (OSError "FileNotFoundError")
      | Some d =>
          let base := last names "" in
          if stays base || String.eqb base ".." then
            Raise (OSError "IsADirectoryError")
          else
            match nodes fs (d ++ [base])%list with
            | Some Dir => Raise (OSError "IsADirectoryError")
            | _ =>
                Ok {| cwd := cwd fs;
                      nodes := put (d ++ [base])%list (File content) (nodes fs) |}
            end
      end
  end.

(** ** Output writer *)

(** The path written: the one given, or one derived from the target name
    and the persona code. *)
Definition output_path (r : outreach_result) (output_file : option string)
  : string :=
  match output_file with
  | Some (String c f) => String c f
  | _ =>
      let clean_name := Py.replace " " "-" (Py.lower (target r)) in
      "tools/outreach/" ++ clean_name ++ "-" ++ persona r ++ ".json"
  end.

Definition save_output (fs : filesystem) (r : outreach_result)
    (output_file : option string) : filesystem * result string :=
  let output_file := output_path r output_file in
  match makedirs (dirname output_file) fs with
  | Raise e => (fs, Raise e)
  | Ok fs1 =>
      match open_write output_file (dumps 0 (result_dict r)) fs1 with
      | Raise e => (fs1, Raise e)
      | Ok fs2 => (fs2, Ok output_file)
      end
  end.

(** [print_result] as far as it can fail: [result["messages"].items()]
    needs a dict; the text printed is left out. *)
Definition print_result (r : outreach_result) : result unit :=
  match messages r with
  | JObj _ => Ok tt
  | _ => Raise (AttributeError "object has no attribute 'items'")
  end.

(** ** Command line *)

(** The namespace [parser.parse_args()] returns. *)
Record args : Type := {
  arg_name : option string;
  arg_persona : option string;
  arg_platform : option string;
  arg_bio : option string;
  arg_content : option string;
  arg_config : option string;
  arg_output : option string;
  arg_quiet : bool
}.

(** The fields read from a config file. *)
Record target_config : Type := {
  cfg_name : string;
  cfg_persona : string;
  cfg_platform : string;
  cfg_bio : option string;
  cfg_recent_content : option string
}.

(** How a run of [main] ends. *)
Inductive outcome : Type :=
| Saved (output_file : string)
    (** messages generated and written *)
| Usage (msg : string)
    (** [parser.error(msg)]: usage and [msg] on the error stream *)
| Failed (e : error)
    (** caught by [except Exception]: the failure marker and [str(e)] on the
        error stream, then [sys.exit(1)] *)
| Crashed (e : error).
    (** raised while the config file is loaded, outside the [try] *)

(** The exit status: [ArgumentParser.error] exits with 2, [sys.exit(1)] and
    an uncaught exception with 1. *)
Definition exit_status (o : outcome) : Z :=
  match o with
  | Saved _ => 0
  | Usage _ => 2
  | Failed _ => 1
  | Crashed _ => 1
  end.

Record run : Type := {
  ending : outcome;
  sent : list request;
  disk : filesystem
}.

Definition usage_message : string :=
  "--name, --persona, and --platform are required (or use --config)".

(** The body of the [try] in [main]. *)
Definition generate_and_save (w : world) (fs : filesystem)
    (target_name persona_code platform : string)
    (bio recent_content output : option string) (quiet : bool) : run :=
  match generate_outreach_messages w target_name persona_code platform
          bio recent_content None with
  | (reqs, Raise e) => {| ending := Failed e; sent := reqs; disk := fs |}
  | (reqs, Ok r) =>
      match save_output fs r output with
      | (fs', Raise e) => {| ending := Failed e; sent := reqs; disk := fs' |}
      | (fs', Ok output_file) =>
          if quiet then
            {| ending := Saved output_file; sent := reqs; disk := fs' |}
          else
            match print_result r with
            | Raise e => {| ending := Failed e; sent := reqs; disk := fs' |}
            | Ok _ =>
                {| ending := Saved output_file; sent := reqs; disk := fs' |}
            end
      end
  end.

(** [main]; [load_config] stands for opening the config file, decoding it
    and reading its five fields. *)
Definition main (w : world) (load_config : string -> result target_config)
    (fs : filesystem) (a : args) : run :=
  match arg_config a with
  | Some (String c p) =>
      match load_config (String c p) with
      | Raise e => {| ending := Crashed e; sent := []; disk := fs |}
      | Ok cfg =>
          generate_and_save w fs (cfg_name cfg) (cfg_persona cfg)
            (cfg_platform cfg) (cfg_bio cfg) (cfg_recent_content cfg)
            (arg_output a) (arg_quiet a)
      end
  | _ =>
      match arg_name a, arg_persona a, arg_platform a with
      | Some (String n0 n), Some (String p0 p), Some (String l0 l) =>
          generate_and_save w fs (String n0 n) (String p0 p) (String l0 l)
            (arg_bio a) (arg_content a) (arg_output a) (arg_quiet a)
      | _, _, _ =>
          {| ending := Usage usage_message; sent := []; disk := fs |}
      end
  end.

End Runtime.

(** ** Notions used to state the decoder's behaviour around white space *)

(** [s] followed by the one character [c]. *)
Definition snoc (s : string) (c : ascii) : string := s ++ String c "".

(** A result whose remaining text gets [c] appended. *)
Definition tail_snoc {A} (c : ascii) (o : option (A * string))
  : option (A * string) :=
  match o with
  | Some (a, r) => Some (a, snoc r c)
  | None => None
  end.

(** The characters [str.isspace] accepts in the Latin-1 range. *)
Definition space_chars : list ascii :=
  map Py.chr [9; 10; 11; 12; 13; 28; 29; 30; 31; 32; 133; 160].

(** [a] is one of the characters of [lit]. *)
Fixpoint occurs (a : ascii) (lit : string) : bool :=
  match lit with
  | "" => false
  | String b lit' => Ascii.eqb b a || occurs a lit'
  end.

(** Every character of [w] is white space for [str.strip]. *)
Fixpoint all_space (w : string) : bool :=
  match w with
  | "" => true
  | String a w' => Py.is_space a && all_space w'
  end.

(** ** Sample inputs *)

Definition sample_result : outreach_result :=
  {| target := "Sean Forbes";
     persona := "d";
     platform := "Instagram";
     referral_hash := "se81";
     url := "jam.audiolux.app?v=d&r=se81";
     messages := three_messages |}.

(** A disk that holds the working directory only. *)
Definition empty_disk : filesystem :=
  {| cwd := [];
     nodes := fun p => if path_eqb p [] then Some Dir else None |}.


(** A world with a credential, whose service answers the three-key
    object, one without a credential, and a config loader that finds no
    file. *)
Definition ready_world : world :=
  {| env_api_key := Some "sk-test"; service := fun _ => Reply three_keys |}.

Definition bare_world : world :=
  {| env_api_key := None; service := fun _ => Reply three_keys |}.

Definition no_config (name : string) : result target_config :=
  Raise (OSError "FileNotFoundError").

(** A command line with nothing on it, and one without [--persona]. *)
Definition no_arguments : args :=
  {| arg_name := None; arg_persona := None; arg_platform := None;
     arg_bio := None; arg_content := None; arg_config := None;
     arg_output := None; arg_quiet := false |}.

Definition no_persona_argument : args :=
  {| arg_name := Some "Sean Forbes"; arg_persona := None;
     arg_platform := Some "Instagram"; arg_bio := None;
     arg_content := None; arg_config := None; arg_output := None;
     arg_quiet := false |}.

Definition full_arguments : args :=
  {| arg_name := Some "Sean Forbes"; arg_persona := Some "d";
     arg_platform := Some "Instagram"; arg_bio := Some "";
     arg_content := None; arg_config := None; arg_output := None;
     arg_quiet := false |}.

From Stdlib Require DecimalPos DecimalFacts.

(** ** Notions used to state further properties *)

(** Every character of [s] satisfies [P]. *)
Fixpoint all_chars (P : ascii -> bool) (s : string) : bool :=
  match s with
  | "" => true
  | String c r => P c && all_chars P r
  end.

(** A character a normalized name can hold: not a space, not an apostrophe,
    and its own lowercase form. *)
Definition clean_char (c : ascii) : bool :=
  negb (Ascii.eqb c " ") && negb (Ascii.eqb c "'")
  && Ascii.eqb (Py.lower_char c) c.

Definition has_slash (s : string) : bool :=
  negb (all_chars (fun c => negb (Ascii.eqb c "/")) s).

(** What a path text names on a disk: the node reached by following all
    its names but the last, then the last. *)
Definition stat (fs : filesystem) (name : string) : option node :=
  match name with
  | "" => None
  | _ =>
      let names := components name in
      match walk (nodes fs) (start fs name) (removelast names) with
      | None => None
      | Some d =>
          let base := last names "" in
          if stays base then nodes fs d
          else if String.eqb base ".." then nodes fs (removelast d)
          else nodes fs (d ++ [base])%list
      end
  end.

(** A reply that decodes to a list, not to an object. *)
Definition list_world : world :=
  {| env_api_key := Some "sk-test"; service := fun _ => Reply "[1, 2]" |}.

(** A world whose service is down. *)
Definition down_world : world :=
  {| env_api_key := Some "sk-env"; service := fun _ => Failure "overloaded" |}.

(** A config loader that finds one file, whatever its name. *)
Definition sample_config (name : string) : result target_config :=
  Ok {| cfg_name := "Sean Forbes"; cfg_persona := "d";
        cfg_platform := "Instagram"; cfg_bio := None;
        cfg_recent_content := None |}.

(** Command lines: a config file alone, a config file with flags beside
    it, an empty name, and an explicit output path in quiet mode or
    not. *)
Definition config_only : args :=
  {| arg_name := None; arg_persona := None; arg_platform := None;
     arg_bio := None; arg_content := None; arg_config := Some "target.json";
     arg_output := None; arg_quiet := false |}.

Definition config_and_flags : args :=
  {| arg_name := Some "Somebody Else"; arg_persona := Some "m";
     arg_platform := Some "Email"; arg_bio := Some "bio";
     arg_content := Some "content"; arg_config := Some "target.json";
     arg_output := None; arg_quiet := false |}.

Definition empty_name : args :=
  {| arg_name := Some ""; arg_persona := Some "d";
     arg_platform := Some "Instagram"; arg_bio := None;
     arg_content := None; arg_config := Some ""; arg_output := None;
     arg_quiet := false |}.

Definition quiet_arguments : args :=
  {| arg_name := Some "Sean Forbes"; arg_persona := Some "d";
     arg_platform := Some "Instagram"; arg_bio := None;
     arg_content := None; arg_config := None; arg_output := None;
     arg_quiet := true |}.





(** ** Values that [json.dump] and [json.loads] carry back and forth *)

(** A code point a string may hold and be read back: in range, and not
    a high surrogate, which the decoder would join with a low one that
    follows. *)
Definition valid_code (n : Z) : bool :=
  (0 <=? n) && (n <? 0x110000) && negb (Json.is_high n).

Fixpoint distinct_keys (ks : list (list Z)) : bool :=
  match ks with
  | [] => true
  | k :: r => negb (existsb (Json.key_eqb k) r) && distinct_keys r
  end.

(** No float, valid code points in every string and key, no key twice in
    an object. *)
Fixpoint canonical (v : json) : bool :=
  match v with
  | JNull => true
  | JBool _ => true
  | JInt _ => true
  | JFloat _ => false
  | JStr s => forallb valid_code s
  | JArr items => forallb canonical items
  | JObj pairs =>
      forallb (fun kv => forallb valid_code (fst kv) && canonical (snd kv))
        pairs
      && distinct_keys (map fst pairs)
  end.

(** A text that can follow a value in what [dumps] writes: nothing, a
    comma or a line feed. *)
Definition follows (tail : string) : bool :=
  match tail with
  | "" => true
  | String c _ => (Py.code c =? 44) || (Py.code c =? 10)
  end.

(** Induction on a value with its items and members. *)
Section JsonInduction.

Variable P : json -> Prop.
Hypothesis P_null : P JNull.
Hypothesis P_bool : forall b, P (JBool b).
Hypothesis P_int : forall n, P (JInt n).
Hypothesis P_float : forall l, P (JFloat l).
Hypothesis P_str : forall s, P (JStr s).
Hypothesis P_arr : forall items, Forall P items -> P (JArr items).
Hypothesis P_obj :
  forall pairs, Forall (fun kv => P (snd kv)) pairs -> P (JObj pairs).

Fixpoint json_induction (v : json) : P v :=
  match v with
  | JNull => P_null
  | JBool b => P_bool b
  | JInt n => P_int n
  | JFloat l => P_float l
  | JStr s => P_str s
  | JArr items =>
      P_arr items
        ((fix all (l : list json) : Forall P l :=
            match l with
            | [] => Forall_nil P
            | x :: r => Forall_cons x (json_induction x) (all r)
            end) items)
  | JObj pairs =>
      P_obj pairs
        ((fix all (l : list (list Z * json))
            : Forall (fun kv => P (snd kv)) l :=
            match l with
            | [] => Forall_nil _
            | kv :: r =>
                Forall_cons (P := fun kv => P (snd kv)) kv
                  (json_induction (snd kv)) (all r)
            end) pairs)
  end.

End JsonInduction.

(** What is proved of every value by induction: written at any level and
    followed by [tail], it is read back with [tail] left over. *)
Definition reads_back (float_repr : string -> string) (v : json) : Prop :=
  canonical v = true ->
  forall level tail f,
    follows tail = true ->
    (2 * String.length (dumps float_repr level v ++ tail) + 1 <= f)%nat ->
    Json.scan_once f (dumps float_repr level v ++ tail) = Some (v, tail).

(** * Properties *)

(** ** Sanity checks of the embedding *)

Example md5_empty : MD5.hexdigest [] = "d41d8cd98f00b204e9800998ecf8427e".
Proof. vm_compute. reflexivity. Qed.

Example md5_abc :
  MD5.hexdigest (Py.encode "abc") = "900150983cd24fb0d6963f7d28e17f72".
Proof. vm_compute. reflexivity. Qed.

Example md5_two_blocks :
  Py.take 8 (MD5.hexdigest (repeat 97 70)) = "0f5c6c4e".
Proof. vm_compute. reflexivity. Qed.

Example referral_hash_sean : generate_referral_hash "Sean Forbes" = "se81".
Proof. vm_compute. reflexivity. Qed.

Example loads_three_keys : Json.loads three_keys = Some three_messages.
Proof. vm_compute. reflexivity. Qed.

Example loads_nested :
  Json.loads " [1, -2.5e3, true, null, {}, [], NaN, -Infinity, -0] "
  = Some (JArr [JInt 1; JFloat "-2.5e3"; JBool true; JNull; JObj []; JArr [];
                JFloat "NaN"; JFloat "-Infinity"; JInt 0]).
Proof. vm_compute. reflexivity. Qed.

Example loads_garbage : Json.loads "01" = None /\ Json.loads "[1,]" = None
  /\ Json.loads "tru" = None /\ Json.loads "{} x" = None /\ Json.loads "" = None.
Proof. vm_compute. repeat split. Qed.

Example loads_escapes :
  Json.loads (Py.dq ++ "a\n\u00e9\ud83d\ude00\ud83d\u0041\ud83dx\ud83d\t\/"
                    ++ Py.dq)
  = Some (JStr [97; 10; 233; 128512; 55357; 65; 55357; 120; 55357; 9; 47]).
Proof. vm_compute. reflexivity. Qed.

Example loads_bad_strings :
  Json.loads (Py.dq ++ "a\x" ++ Py.dq) = None
  /\ Json.loads (Py.dq ++ "\u12g4" ++ Py.dq) = None
  /\ Json.loads (Py.dq ++ "\ud83d\u12" ++ Py.dq) = None
  /\ Json.loads (Py.dq ++ "tab" ++ String (Py.chr 9) "" ++ Py.dq) = None
  /\ Json.loads (Py.dq ++ "open") = None.
Proof. vm_compute. repeat split. Qed.

Example loads_repeated_key :
  Json.loads ("{" ++ Py.dq ++ "a" ++ Py.dq ++ ":1," ++ Py.dq ++ "b" ++ Py.dq
              ++ ":2," ++ Py.dq ++ "a" ++ Py.dq ++ ":3}")
  = Some (JObj [(Json.ustr "a", JInt 3); (Json.ustr "b", JInt 2)]).
Proof. vm_compute. reflexivity. Qed.

Example parse_direct :
  parse_response three_keys = ([three_keys], Ok three_messages).
Proof. vm_compute. reflexivity. Qed.

Example parse_fenced :
  parse_response (fenced three_keys)
  = ([fenced three_keys; three_keys], Ok three_messages).
Proof. vm_compute. reflexivity. Qed.

Example invalid_persona_message :
  invalid_persona "x"
  = ValueError "Invalid persona code: x. Must be one of: ['m', 'd', 'e', 'v', 'p', 'i']".
Proof. vm_compute. reflexivity. Qed.

Example main_saves :
  let r := main (fun l => l) ready_world no_config empty_disk full_arguments in
  ending r = Saved "tools/outreach/sean-forbes-d.json"
  /\ exit_status (ending r) = 0
  /\ List.length (sent r) = 1%nat
  /\ nodes (disk r) ["tools"; "outreach"; "sean-forbes-d.json"]
     = Some (File (dumps (fun l => l) 0 (result_dict sample_result))).
Proof. vm_compute. repeat split. Qed.

Example main_without_credential :
  let r := main (fun l => l) bare_world no_config empty_disk full_arguments in
  ending r = Failed missing_credential /\ exit_status (ending r) = 1
  /\ sent r = [].
Proof. vm_compute. repeat split. Qed.

(** ** Strings *)

Lemma length_append (a b : string) :
  String.length (a ++ b) = (String.length a + String.length b)%nat.
Proof.
  induction a as [|c a IH]; simpl; [reflexivity | now rewrite IH].
Qed.



(** ** Referral hash *)

Lemma hex_digit_lower (n : Z) : is_lower_hex (MD5.hex_digit n) = true.
Proof.
  unfold MD5.hex_digit.
  assert (H : 0 <= n mod 16 < 16) by (apply Z.mod_pos_bound; lia).
  destruct (n mod 16) as [|p|p]; try lia; [reflexivity|].
  do 4 (destruct p as [p|p|]; try lia; try reflexivity).
Qed.

Lemma hexdigest_head (msg : list Z) :
  exists h1 h2 rest,
    MD5.hexdigest msg = String h1 (String h2 rest)
    /\ is_lower_hex h1 = true /\ is_lower_hex h2 = true
    /\ String.length rest = 30%nat.
Proof.
  unfold MD5.hexdigest.
  destruct (MD5.md5 msg) as [[[a b] c] d].
  cbn [MD5.digest MD5.le_bytes seq map app MD5.hex MD5.hex_byte append].
  do 3 eexists. split; [reflexivity|].
  split; [apply hex_digit_lower|]. split; [apply hex_digit_lower|].
  reflexivity.
Qed.



(** ** URL builder *)

(** C7: [build_persona_url("d", "se12")] with the default host is
    [jam.audiolux.app?v=d&r=se12]; in general the result is the base host
    followed by [?v=], the persona code, [&r=] and the referral hash. *)
Theorem build_persona_url_format :
  build_persona_url "d" "se12" default_base_url = "jam.audiolux.app?v=d&r=se12"
  /\ forall persona_code referral_hash base_url,
       build_persona_url persona_code referral_hash base_url
       = base_url ++ "?v=" ++ persona_code ++ "&r=" ++ referral_hash.
Proof.
  split; [reflexivity | intros; reflexivity].
Qed.

(** ** Prompt composer *)


(** ** Persona validation and the credential *)

Lemma lookup_absent {A} (k : string) (d : list (string * A)) :
  ~ In k (keys d) -> lookup k d = None.
Proof.
  induction d as [|[k' v] d IH]; simpl; intros H; [reflexivity|].
  destruct (String.eqb_spec k k') as [->|N].
  - exfalso. apply H. now left.
  - apply IH. intros I. apply H. now right.
Qed.

(** C3: with a persona code outside the six of [PERSONAS], whatever the
    other inputs, [generate_outreach_messages] raises and no request has
    been sent to the service. *)
Theorem invalid_persona_fails_before_request
    (w : world) (target_name persona_code platform : string)
    (bio recent_content api_key : option string) :
  ~ In persona_code (keys PERSONAS) ->
  List.length (keys PERSONAS) = 6%nat
  /\ exists e,
       generate_outreach_messages w target_name persona_code platform
         bio recent_content api_key = ([], Raise e)
       /\ (e = missing_credential \/ e = invalid_persona persona_code).
Proof.
  intros H. split; [reflexivity|].
  unfold generate_outreach_messages.
  rewrite (lookup_absent _ _ H).
  destruct (if Py.truthy api_key then api_key else env_api_key w) as [[|c k]|];
    eexists; split; try reflexivity; auto.
Qed.

Lemma invalid_persona_fails_before_request_witness :
  exists e,
    generate_outreach_messages
      ready_world "Sean Forbes" "x" "Instagram" None None None
    = ([], Raise e).
Proof.
  destruct (invalid_persona_fails_before_request ready_world
              "Sean Forbes" "x" "Instagram" None None None) as (_ & e & E & _).
  - vm_compute. intuition discriminate.
  - exists e. exact E.
Defined.

(** C8: without an [api_key] argument and without the environment
    variable, [generate_outreach_messages] raises the missing-credential
    error whatever the persona code is; so a run that raises the
    invalid-persona error had a credential. *)
Theorem missing_credential_precedes_persona_check
    (w : world) (target_name persona_code platform : string)
    (bio recent_content api_key : option string) :
  (Py.truthy api_key = false -> Py.truthy (env_api_key w) = false ->
   generate_outreach_messages w target_name persona_code platform
     bio recent_content api_key = ([], Raise missing_credential))
  /\ (snd (generate_outreach_messages w target_name persona_code platform
             bio recent_content api_key)
      = Raise (invalid_persona persona_code) ->
      Py.truthy api_key = true \/ Py.truthy (env_api_key w) = true).
Proof.
  assert (M : Py.truthy api_key = false -> Py.truthy (env_api_key w) = false ->
              generate_outreach_messages w target_name persona_code platform
                bio recent_content api_key = ([], Raise missing_credential)).
  { intros Hk He. unfold generate_outreach_messages. rewrite Hk.
    destruct (env_api_key w) as [[|c k]|]; simpl in He;
      try discriminate; reflexivity. }
  split; [exact M|].
  intros E.
  destruct (Py.truthy api_key) eqn:Hk; [now left|].
  destruct (Py.truthy (env_api_key w)) eqn:He; [now right|].
  rewrite (M eq_refl eq_refl) in E. simpl in E. discriminate E.
Qed.

Lemma missing_credential_precedes_persona_check_witness :
  generate_outreach_messages bare_world
    "Sean Forbes" "x" "Instagram" None None None
  = ([], Raise missing_credential).
Proof.
  apply (missing_credential_precedes_persona_check bare_world
           "Sean Forbes" "x" "Instagram" None None None); reflexivity.
Defined.

(** ** Response interpreter: the error paths *)

Lemma prefix_append (sub q : string) : prefix sub (sub ++ q) = true.
Proof.
  induction sub as [|c sub IH]; simpl; [now destruct q|].
  destruct (ascii_dec c c) as [_|N]; [exact IH | now elim N].
Qed.

Lemma find_from_here (sub s : string) (pos : Z) :
  prefix sub s = true -> Py.find_from sub s pos = pos.
Proof.
  intros P. destruct s; unfold Py.find_from; fold Py.find_from;
    now rewrite P.
Qed.

Lemma find_from_next (sub : string) (c : ascii) (r : string) (pos : Z) :
  prefix sub (String c r) = false ->
  Py.find_from sub (String c r) pos = Py.find_from sub r (pos + 1).
Proof.
  intros P. unfold Py.find_from at 1; fold Py.find_from. now rewrite P.
Qed.








(** ** Command line *)

(** C2 as stated fails: with nothing on the command line the run ends
    in the usage error and sends no request, and its exit status is 2,
    not 1. *)
Lemma usage_error_exit_status_is_not_1 :
  arg_config no_arguments = None
  /\ arg_name no_arguments = None
  /\ main (fun l => l) ready_world no_config empty_disk no_arguments
     = {| ending := Usage usage_message; sent := []; disk := empty_disk |}
  /\ exit_status
       (ending (main (fun l => l) ready_world no_config empty_disk
                  no_arguments)) = 2
  /\ exit_status
       (ending (main (fun l => l) ready_world no_config empty_disk
                  no_arguments)) <> 1.
Proof.
  repeat split. discriminate.
Qed.

(** C2, amended: without [--config] and with one of [--name],
    [--persona], [--platform] missing, the run sends no request, ends in
    the usage error, leaves the disk as it was, and exits with status 2. *)
Theorem missing_arguments_usage_error
    (float_repr : string -> string) (w : world)
    (load_config : string -> result target_config)
    (fs : filesystem) (a : args) :
  arg_config a = None ->
  arg_name a = None \/ arg_persona a = None \/ arg_platform a = None ->
  main float_repr w load_config fs a
  = {| ending := Usage usage_message; sent := []; disk := fs |}
  /\ exit_status (ending (main float_repr w load_config fs a)) = 2.
Proof.
  intros C M.
  assert (E : main float_repr w load_config fs a
              = {| ending := Usage usage_message; sent := []; disk := fs |}).
  { unfold main. rewrite C.
    destruct M as [M|[M|M]]; rewrite M; try reflexivity.
    - destruct (arg_name a) as [[|? ?]|]; reflexivity.
    - destruct (arg_name a) as [[|? ?]|]; try reflexivity.
      destruct (arg_persona a) as [[|? ?]|]; reflexivity. }
  rewrite E. split; reflexivity.
Qed.

Lemma missing_arguments_usage_error_witness :
  exit_status
    (ending (main (fun l => l) ready_world no_config empty_disk
               no_persona_argument)) = 2.
Proof.
  apply (missing_arguments_usage_error (fun l => l) ready_world no_config
           empty_disk no_persona_argument).
  - reflexivity.
  - right. left. reflexivity.
Defined.

(** ** The decoder and surrounding white space *)

Lemma space_cases (c : ascii) : Py.is_space c = true -> In c space_chars.
Proof.
  destruct c as [[] [] [] [] [] [] [] []]; intros H;
    try discriminate H; vm_compute; tauto.
Qed.

(** Splits a goal about a space character into the twelve characters. *)
Ltac each_space H :=
  apply space_cases in H; unfold space_chars in H; simpl in H;
  repeat (destruct H as [H|H]; [subst|]); try contradiction.


Lemma skip_ws_length (s : string) :
  (String.length (Json.skip_ws s) <= String.length s)%nat.
Proof.
  induction s as [|a s IH]; simpl; [lia|].
  destruct (Json.is_ws a); simpl; lia.
Qed.

Section Trailing.

Variable c : ascii.
Hypothesis space_c : Py.is_space c = true.

Lemma skip_ws_snoc (r : string) :
  (Json.skip_ws r = ""
   /\ (Json.skip_ws (snoc r c) = "" \/ Json.skip_ws (snoc r c) = String c ""))
  \/ (exists q y, Json.skip_ws r = String q y
                  /\ Json.skip_ws (snoc r c) = String q (snoc y c)).
Proof.
  induction r as [|a r IH]; simpl.
  - left. split; [reflexivity|]. destruct (Json.is_ws c); auto.
  - destruct (Json.is_ws a); [exact IH|].
    right. exists a, r. split; reflexivity.
Qed.

Lemma push_tail_snoc (n : Z) (k : option (list Z * string)) :
  Json.push n (tail_snoc c k) = tail_snoc c (Json.push n k).
Proof.
  destruct k as [[u r]|]; reflexivity.
Qed.

Lemma scan_string_from_snoc (st : Json.str_state) (x : string) :
  Json.scan_string_from st (snoc x c)
  = tail_snoc c (Json.scan_string_from st x).
Proof.
  revert st. induction x as [|a x IH]; intros st.
  - pose proof space_c as H. each_space H; destruct st as [| |[|[|k]] acc|u|u|u [|[|k]] acc]; reflexivity.
  - unfold snoc in *. simpl.
    destruct st as [| |k acc|u|u|u k acc];
      repeat match goal with
        | |- context [if ?b then _ else _] => destruct b
        | |- context [match Json.escape ?e with _ => _ end] =>
            destruct (Json.escape e)
        | |- context [match Json.hex_val ?e with _ => _ end] =>
            destruct (Json.hex_val e)
        | |- context [match ?k with O => _ | S _ => _ end] => destruct k
        end;
      rewrite ?IH, ?push_tail_snoc; reflexivity.
Qed.

Lemma match_lit_snoc (lit x : string) :
  occurs c lit = false ->
  Json.match_lit lit (snoc x c) = option_map (fun r => snoc r c) (Json.match_lit lit x).
Proof.
  revert x. induction lit as [|b lit IH]; intros x H.
  - destruct x; reflexivity.
  - simpl in H. apply orb_false_iff in H. destruct H as [H1 H2].
    destruct x as [|a x]; simpl.
    + now rewrite H1.
    + destruct (Ascii.eqb b a); [apply IH; exact H2 | reflexivity].
Qed.

Lemma lit_value_snoc (lit : string) (v : json) (x : string) :
  occurs c lit = false ->
  Json.lit_value lit v (snoc x c) = tail_snoc c (Json.lit_value lit v x).
Proof.
  intros H. unfold Json.lit_value. rewrite match_lit_snoc by exact H.
  destruct (Json.match_lit lit x); reflexivity.
Qed.

Lemma space_not_digit : Json.is_digit c = false.
Proof.
  pose proof space_c as H. each_space H; reflexivity.
Qed.

Lemma span_digits_snoc (x : string) :
  Json.span_digits (snoc x c)
  = (fst (Json.span_digits x), snoc (snd (Json.span_digits x)) c).
Proof.
  induction x as [|a x IH]; unfold snoc in *; simpl.
  - now rewrite space_not_digit.
  - destruct (Json.is_digit a); [|reflexivity].
    rewrite IH. destruct (Json.span_digits x). reflexivity.
Qed.

Lemma scan_int_snoc (x : string) :
  Json.scan_int (snoc x c)
  = option_map (fun p => (fst p, snoc (snd p) c)) (Json.scan_int x).
Proof.
  destruct x as [|a r]; unfold snoc; simpl.
  - pose proof space_c as H. each_space H; reflexivity.
  - destruct (Py.code a =? 48); [reflexivity|].
    destruct (Json.is_digit a); [|reflexivity].
    fold (snoc r c). rewrite span_digits_snoc.
    destruct (Json.span_digits r). reflexivity.
Qed.

Lemma scan_frac_snoc (x : string) :
  Json.scan_frac (snoc x c)
  = (fst (Json.scan_frac x), snoc (snd (Json.scan_frac x)) c).
Proof.
  destruct x as [|a r]; unfold snoc; simpl.
  - pose proof space_c as H. each_space H; reflexivity.
  - destruct (Py.code a =? 46); [|reflexivity].
    fold (snoc r c). rewrite span_digits_snoc.
    destruct (Json.span_digits r) as [[|d0 d] r']; reflexivity.
Qed.

Lemma scan_exp_snoc (x : string) :
  Json.scan_exp (snoc x c)
  = (fst (Json.scan_exp x), snoc (snd (Json.scan_exp x)) c).
Proof.
  destruct x as [|a r].
  - pose proof space_c as H. each_space H; reflexivity.
  - unfold Json.scan_exp, snoc. cbn [append].
    destruct ((Py.code a =? 101) || (Py.code a =? 69)); [|reflexivity].
    destruct r as [|g r1]; cbn [append].
    + pose proof space_c as H. each_space H; reflexivity.
    + destruct ((Py.code g =? 45) || (Py.code g =? 43)).
      * fold (snoc r1 c). rewrite span_digits_snoc.
        destruct (Json.span_digits r1) as [[|d0 d] r']; reflexivity.
      * change (String g (r1 ++ String c "")) with (snoc (String g r1) c).
        rewrite span_digits_snoc.
        destruct (Json.span_digits (String g r1)) as [[|d0 d] r'];
          reflexivity.
Qed.

Lemma sign_split_snoc (x : string) :
  Json.sign_split (snoc x c)
  = (fst (Json.sign_split x), snoc (snd (Json.sign_split x)) c).
Proof.
  destruct x as [|a r]; unfold snoc; simpl.
  - pose proof space_c as H. each_space H; reflexivity.
  - destruct (Py.code a =? 45); reflexivity.
Qed.

Lemma match_number_snoc (x : string) :
  Json.match_number (snoc x c) = tail_snoc c (Json.match_number x).
Proof.
  unfold Json.match_number.
  rewrite sign_split_snoc.
  destruct (Json.sign_split x) as [neg s1]. cbn [fst snd].
  rewrite scan_int_snoc.
  destruct (Json.scan_int s1) as [[ds s2]|]; [|reflexivity].
  cbn [option_map fst snd]. rewrite scan_frac_snoc.
  destruct (Json.scan_frac s2) as [frac s3]. cbn [fst snd].
  rewrite scan_exp_snoc.
  destruct (Json.scan_exp s3) as [exp s4]. cbn [fst snd].
  destruct frac, exp; reflexivity.
Qed.

Lemma first_of_tail_snoc {A} (a b : option (A * string)) :
  Json.first_of (tail_snoc c a) (tail_snoc c b)
  = tail_snoc c (Json.first_of a b).
Proof.
  destruct a as [[? ?]|]; reflexivity.
Qed.

Lemma space_in_no_literal :
  occurs c "null" = false /\ occurs c "true" = false
  /\ occurs c "false" = false /\ occurs c "NaN" = false
  /\ occurs c "Infinity" = false /\ occurs c "-Infinity" = false.
Proof.
  pose proof space_c as H. each_space H; repeat split.
Qed.

Lemma scan_atom_snoc (x : string) :
  Json.scan_atom (snoc x c) = tail_snoc c (Json.scan_atom x).
Proof.
  destruct space_in_no_literal as (N1 & N2 & N3 & N4 & N5 & N6).
  unfold Json.scan_atom.
  rewrite !lit_value_snoc by assumption.
  rewrite match_number_snoc.
  now rewrite !first_of_tail_snoc.
Qed.

Lemma space_no_delimiter :
  (Py.code c =? 34) = false /\ (Py.code c =? 44) = false
  /\ (Py.code c =? 58) = false /\ (Py.code c =? 93) = false
  /\ (Py.code c =? 125) = false.
Proof.
  pose proof space_c as H. each_space H; repeat split.
Qed.

Lemma scan_once_empty (f : nat) : Json.scan_once f "" = None.
Proof. destruct f; reflexivity. Qed.

Lemma array_items_empty (f : nat) (acc : list json) :
  Json.array_items f "" acc = None.
Proof.
  destruct f as [|f]; [reflexivity|]. cbn [Json.array_items].
  now rewrite scan_once_empty.
Qed.

Lemma object_items_empty (f : nat) (acc : list (list Z * json)) :
  Json.object_items f "" acc = None.
Proof. destruct f; reflexivity. Qed.

(** Cases on the text left after white space once [c] is appended. *)
Ltac ws_split r :=
  let E := fresh "E" in
  let E' := fresh "E'" in
  let q := fresh "q" in
  let y := fresh "y" in
  destruct (skip_ws_snoc r) as [[E [E'|E']]|(q & y & E & E')];
  rewrite E, E'; clear E E'.

Lemma scan_snoc (f : nat) :
  (forall x, Json.scan_once f (snoc x c) = tail_snoc c (Json.scan_once f x))
  /\ (forall x acc,
        Json.array_items f (snoc x c) acc
        = tail_snoc c (Json.array_items f x acc))
  /\ (forall x acc,
        Json.object_items f (snoc x c) acc
        = tail_snoc c (Json.object_items f x acc)).
Proof.
  destruct space_no_delimiter as (D34 & D44 & D58 & D93 & D125).
  induction f as [|f (IH1 & IH2 & IH3)]; [repeat split|].
  assert (dead1 : Json.scan_once f (String c "") = None).
  { change (String c "") with (snoc "" c). now rewrite IH1, scan_once_empty. }
  assert (dead2 : forall acc, Json.array_items f (String c "") acc = None).
  { intros acc. change (String c "") with (snoc "" c).
    now rewrite IH2, array_items_empty. }
  split; [|split].
  - intros [|a r].
    + pose proof space_c as H. each_space H; reflexivity.
    + change (snoc (String a r) c) with (String a (snoc r c)).
      cbn [Json.scan_once].
      destruct (Py.code a =? 34).
      { unfold Json.scan_string. rewrite scan_string_from_snoc.
        destruct (Json.scan_string_from Json.Plain r) as [[u r']|];
          reflexivity. }
      destruct (Py.code a =? 123).
      { ws_split r; try reflexivity.
        - now rewrite D34, D125.
        - destruct (Py.code q =? 34); [apply IH3|].
          destruct (Py.code q =? 125); reflexivity. }
      destruct (Py.code a =? 91).
      { ws_split r; try reflexivity.
        - rewrite D93. apply dead2.
        - destruct (Py.code q =? 93); [reflexivity|].
          apply (IH2 (String q y)). }
      apply (scan_atom_snoc (String a r)).
  - intros x acc. cbn [Json.array_items]. rewrite IH1.
    destruct (Json.scan_once f x) as [[v r]|]; [|reflexivity].
    cbn [tail_snoc].
    ws_split r; try reflexivity.
    + now rewrite D93, D44.
    + destruct (Py.code q =? 93); [reflexivity|].
      destruct (Py.code q =? 44); [|reflexivity].
      ws_split y.
      * now rewrite array_items_empty.
      * now rewrite dead2, array_items_empty.
      * apply (IH2 (String q0 y0)).
  - intros x acc. cbn [Json.object_items].
    unfold Json.scan_string. rewrite scan_string_from_snoc.
    destruct (Json.scan_string_from Json.Plain x) as [[key r]|];
      [|reflexivity].
    cbn [tail_snoc].
    ws_split r; try reflexivity.
    + now rewrite D58.
    + destruct (Py.code q =? 58); [|reflexivity].
      assert (W : Json.scan_once f (Json.skip_ws (snoc y c))
                  = tail_snoc c (Json.scan_once f (Json.skip_ws y))).
      { ws_split y.
        - now rewrite scan_once_empty.
        - now rewrite dead1, scan_once_empty.
        - apply (IH1 (String q0 y0)). }
      rewrite W. clear W.
      destruct (Json.scan_once f (Json.skip_ws y)) as [[v r2]|];
        [|reflexivity].
      cbn [tail_snoc].
      ws_split r2; try reflexivity.
      * now rewrite D125, D44.
      * destruct (Py.code q0 =? 125); [reflexivity|].
        destruct (Py.code q0 =? 44); [|reflexivity].
        ws_split y0; try reflexivity.
        -- now rewrite D34.
        -- destruct (Py.code q1 =? 34); [apply IH3 | reflexivity].
Qed.

End Trailing.

(** ** The decoder consumes text, and its fuel is enough *)

Lemma push_some (n : Z) (k : option (list Z * string)) (u : list Z)
    (r : string) :
  Json.push n k = Some (u, r) -> exists u', k = Some (u', r).
Proof.
  destruct k as [[u' r']|]; simpl; intros H; [|discriminate].
  inversion H; subst. now exists u'.
Qed.

Lemma scan_string_from_shorter (s : string) :
  forall st u r,
    Json.scan_string_from st s = Some (u, r) ->
    (String.length r < String.length s)%nat.
Proof.
  induction s as [|a s IH]; intros st u r H; [discriminate|].
  cbn [Json.scan_string_from] in H. cbn [String.length].
  destruct st as [| |k acc|h|h|h k acc];
    repeat match type of H with
      | context [if ?b then _ else _] => destruct b
      | context [match Json.escape ?e with _ => _ end] =>
          destruct (Json.escape e)
      | context [match Json.hex_val ?e with _ => _ end] =>
          destruct (Json.hex_val e)
      | context [match ?k with O => _ | S _ => _ end] => destruct k
      end;
    try discriminate H;
    repeat match type of H with
      | Json.push _ _ = Some _ =>
          apply push_some in H; destruct H as [? H]
      end;
    first [ apply IH in H; lia | inversion H; subst; lia ].
Qed.

Lemma match_lit_length (lit s r : string) :
  Json.match_lit lit s = Some r ->
  String.length s = (String.length lit + String.length r)%nat.
Proof.
  revert s. induction lit as [|b lit IH]; intros s H.
  - destruct s; inversion H; reflexivity.
  - destruct s as [|a s]; [discriminate|]. simpl in H.
    destruct (Ascii.eqb b a); [|discriminate].
    apply IH in H. simpl. lia.
Qed.

Lemma lit_value_shorter (lit : string) (v v' : json) (s r : string) :
  (0 < String.length lit)%nat ->
  Json.lit_value lit v s = Some (v', r) ->
  (String.length r < String.length s)%nat.
Proof.
  unfold Json.lit_value. intros L H.
  destruct (Json.match_lit lit s) as [r'|] eqn:E; [|discriminate].
  inversion H; subst. apply match_lit_length in E. lia.
Qed.

Lemma span_digits_length (s : string) :
  (String.length (snd (Json.span_digits s)) <= String.length s)%nat.
Proof.
  induction s as [|a s IH]; simpl; [lia|].
  destruct (Json.is_digit a); [|simpl; lia].
  destruct (Json.span_digits s). simpl in *. lia.
Qed.

Lemma scan_int_shorter (s d r : string) :
  Json.scan_int s = Some (d, r) -> (String.length r < String.length s)%nat.
Proof.
  destruct s as [|a s]; [discriminate|]. unfold Json.scan_int.
  destruct (Py.code a =? 48); [intros H; inversion H; subst; simpl; lia|].
  destruct (Json.is_digit a); [|discriminate].
  pose proof (span_digits_length s) as L.
  destruct (Json.span_digits s) as [d' r']. intros H. inversion H; subst.
  simpl in *. lia.
Qed.

Lemma scan_frac_length (s : string) :
  (String.length (snd (Json.scan_frac s)) <= String.length s)%nat.
Proof.
  destruct s as [|a s]; [simpl; lia|]. unfold Json.scan_frac.
  destruct (Py.code a =? 46); [|simpl; lia].
  pose proof (span_digits_length s) as L.
  destruct (Json.span_digits s) as [[|d0 d] r']; simpl in *; lia.
Qed.

Lemma scan_exp_length (s : string) :
  (String.length (snd (Json.scan_exp s)) <= String.length s)%nat.
Proof.
  destruct s as [|a s]; [simpl; lia|]. unfold Json.scan_exp.
  destruct ((Py.code a =? 101) || (Py.code a =? 69)); [|simpl; lia].
  destruct s as [|g s1]; [simpl; lia|].
  destruct ((Py.code g =? 45) || (Py.code g =? 43)).
  - pose proof (span_digits_length s1) as L.
    destruct (Json.span_digits s1) as [[|d0 d] r']; simpl in *; lia.
  - pose proof (span_digits_length (String g s1)) as L.
    destruct (Json.span_digits (String g s1)) as [[|d0 d] r'];
      simpl in *; lia.
Qed.

Lemma sign_split_length (s : string) :
  (String.length (snd (Json.sign_split s)) <= String.length s)%nat.
Proof.
  destruct s as [|a s]; [simpl; lia|]. unfold Json.sign_split.
  destruct (Py.code a =? 45); simpl; lia.
Qed.

Lemma match_number_shorter (s : string) (v : json) (r : string) :
  Json.match_number s = Some (v, r) ->
  (String.length r < String.length s)%nat.
Proof.
  unfold Json.match_number.
  pose proof (sign_split_length s) as L0.
  destruct (Json.sign_split s) as [neg s1].
  destruct (Json.scan_int s1) as [[ds s2]|] eqn:E; [|discriminate].
  apply scan_int_shorter in E.
  pose proof (scan_frac_length s2) as L2.
  destruct (Json.scan_frac s2) as [frac s3].
  pose proof (scan_exp_length s3) as L3.
  destruct (Json.scan_exp s3) as [exp s4].
  simpl in *.
  destruct frac, exp; intros H; inversion H; subst; lia.
Qed.

Lemma first_of_some {A} (a b : option A) (x : A) :
  Json.first_of a b = Some x -> a = Some x \/ b = Some x.
Proof.
  destruct a; simpl; auto.
Qed.

Lemma scan_atom_shorter (s : string) (v : json) (r : string) :
  Json.scan_atom s = Some (v, r) -> (String.length r < String.length s)%nat.
Proof.
  unfold Json.scan_atom. intros H.
  repeat (apply first_of_some in H; destruct H as [H|H]);
    first [ now apply match_number_shorter in H
          | apply lit_value_shorter in H; [exact H | simpl; lia] ].
Qed.

(** Rewrites the bound [skip_ws] leaves on a text it was destructed on. *)
Ltac ws_bound r E :=
  let L := fresh "L" in
  pose proof (skip_ws_length r) as L; rewrite E in L;
  cbn [String.length] in L.

Lemma scan_shorter (f : nat) :
  (forall s v r, Json.scan_once f s = Some (v, r) ->
                 (String.length r < String.length s)%nat)
  /\ (forall s acc v r, Json.array_items f s acc = Some (v, r) ->
                        (String.length r < String.length s)%nat)
  /\ (forall s acc v r, Json.object_items f s acc = Some (v, r) ->
                        (String.length r < String.length s)%nat).
Proof.
  induction f as [|f (IH1 & IH2 & IH3)];
    [repeat split; intros; discriminate|].
  split; [|split].
  - intros [|a s] v r H; [discriminate|].
    cbn [Json.scan_once] in H. cbn [String.length].
    destruct (Py.code a =? 34).
    { unfold Json.scan_string in H.
      destruct (Json.scan_string_from Json.Plain s) as [[u r']|] eqn:E;
        [|discriminate].
      apply scan_string_from_shorter in E. inversion H; subst. lia. }
    destruct (Py.code a =? 123).
    { destruct (Json.skip_ws s) as [|q r1] eqn:E; [discriminate|].
      ws_bound s E.
      destruct (Py.code q =? 34); [apply IH3 in H; lia|].
      destruct (Py.code q =? 125); [|discriminate].
      inversion H; subst. lia. }
    destruct (Py.code a =? 91).
    { destruct (Json.skip_ws s) as [|q r1] eqn:E; [discriminate|].
      ws_bound s E.
      destruct (Py.code q =? 93); [inversion H; subst; lia|].
      apply IH2 in H. cbn [String.length] in H. lia. }
    apply scan_atom_shorter in H. cbn [String.length] in H. lia.
  - intros s acc v r H. cbn [Json.array_items] in H.
    destruct (Json.scan_once f s) as [[v1 r1]|] eqn:E1; [|discriminate].
    apply IH1 in E1.
    destruct (Json.skip_ws r1) as [|q r2] eqn:E; [discriminate|].
    ws_bound r1 E.
    destruct (Py.code q =? 93); [inversion H; subst; lia|].
    destruct (Py.code q =? 44); [|discriminate].
    apply IH2 in H. pose proof (skip_ws_length r2). lia.
  - intros s acc v r H. cbn [Json.object_items] in H.
    unfold Json.scan_string in H.
    destruct (Json.scan_string_from Json.Plain s) as [[key r1]|] eqn:E1;
      [|discriminate].
    apply scan_string_from_shorter in E1.
    destruct (Json.skip_ws r1) as [|q r2] eqn:E; [discriminate|].
    ws_bound r1 E.
    destruct (Py.code q =? 58); [|discriminate].
    destruct (Json.scan_once f (Json.skip_ws r2)) as [[v2 r3]|] eqn:E2;
      [|discriminate].
    apply IH1 in E2. pose proof (skip_ws_length r2).
    destruct (Json.skip_ws r3) as [|d r4] eqn:E3; [discriminate|].
    ws_bound r3 E3.
    destruct (Py.code d =? 125); [inversion H; subst; lia|].
    destruct (Py.code d =? 44); [|discriminate].
    destruct (Json.skip_ws r4) as [|q' r5] eqn:E4; [discriminate|].
    ws_bound r4 E4.
    destruct (Py.code q' =? 34); [|discriminate].
    apply IH3 in H. lia.
Qed.

(** A result reached with some fuel is reached with any fuel above twice
    the length of the text. *)
Lemma scan_fuel (f : nat) :
  (forall s y f', Json.scan_once f s = Some y ->
                  (2 * String.length s + 1 <= f')%nat ->
                  Json.scan_once f' s = Some y)
  /\ (forall s acc y f', Json.array_items f s acc = Some y ->
                         (2 * String.length s + 2 <= f')%nat ->
                         Json.array_items f' s acc = Some y)
  /\ (forall s acc y f', Json.object_items f s acc = Some y ->
                         (2 * String.length s + 1 <= f')%nat ->
                         Json.object_items f' s acc = Some y).
Proof.
  induction f as [|f (IH1 & IH2 & IH3)];
    [repeat split; intros; discriminate|].
  destruct (scan_shorter f) as (S1 & S2 & S3).
  split; [|split].
  - intros [|a s] y [|f'] H B; try discriminate; [lia|].
    cbn [Json.scan_once] in *. cbn [String.length] in B.
    destruct (Py.code a =? 34); [exact H|].
    destruct (Py.code a =? 123).
    { destruct (Json.skip_ws s) as [|q r1] eqn:E; [discriminate|].
      ws_bound s E.
      destruct (Py.code q =? 34); [apply IH3; [exact H | lia]|].
      exact H. }
    destruct (Py.code a =? 91).
    { destruct (Json.skip_ws s) as [|q r1] eqn:E; [discriminate|].
      ws_bound s E.
      destruct (Py.code q =? 93); [exact H|].
      apply IH2; [exact H | cbn [String.length]; lia]. }
    exact H.
  - intros s acc y [|f'] H B; [lia|].
    cbn [Json.array_items] in *.
    destruct (Json.scan_once f s) as [[v1 r1]|] eqn:E1; [|discriminate].
    rewrite (IH1 _ _ f' E1) by lia.
    apply S1 in E1.
    destruct (Json.skip_ws r1) as [|q r2] eqn:E; [discriminate|].
    ws_bound r1 E.
    destruct (Py.code q =? 93); [exact H|].
    destruct (Py.code q =? 44); [|discriminate].
    apply IH2; [exact H|]. pose proof (skip_ws_length r2). lia.
  - intros s acc y [|f'] H B; [lia|].
    cbn [Json.object_items] in *.
    unfold Json.scan_string in *.
    destruct (Json.scan_string_from Json.Plain s) as [[key r1]|] eqn:E1;
      [|discriminate].
    apply scan_string_from_shorter in E1.
    destruct (Json.skip_ws r1) as [|q r2] eqn:E; [discriminate|].
    ws_bound r1 E.
    destruct (Py.code q =? 58); [|discriminate].
    pose proof (skip_ws_length r2).
    destruct (Json.scan_once f (Json.skip_ws r2)) as [[v2 r3]|] eqn:E2;
      [|discriminate].
    rewrite (IH1 _ _ f' E2) by lia.
    apply S1 in E2.
    destruct (Json.skip_ws r3) as [|d r4] eqn:E3; [discriminate|].
    ws_bound r3 E3.
    destruct (Py.code d =? 125); [exact H|].
    destruct (Py.code d =? 44); [|discriminate].
    destruct (Json.skip_ws r4) as [|q' r5] eqn:E4; [discriminate|].
    ws_bound r4 E4.
    destruct (Py.code q' =? 34); [|discriminate].
    apply IH3; [exact H | lia].
Qed.

(** [json.loads] never fails for want of fuel: a value found with any
    fuel is the value it returns. *)
Lemma loads_fuel_enough (s : string) (f : nat) (v : json) (r : string) :
  Json.scan_once f (Json.skip_ws s) = Some (v, r) ->
  Json.skip_ws r = "" ->
  Json.loads s = Some v.
Proof.
  intros H E. unfold Json.loads.
  destruct (scan_fuel f) as (F1 & _ & _).
  rewrite (F1 _ _ (Json.fuel_for s) H).
  - now rewrite E.
  - pose proof (skip_ws_length s). unfold Json.fuel_for. lia.
Qed.

(** ** [json.loads] ignores the white space [str.strip] removes *)

Lemma append_empty_r (s : string) : s ++ "" = s.
Proof.
  induction s as [|a s IH]; simpl; [reflexivity | now rewrite IH].
Qed.

Lemma append_assoc (a b d : string) : (a ++ b) ++ d = a ++ b ++ d.
Proof.
  induction a as [|x a IH]; simpl; [reflexivity | now rewrite IH].
Qed.

Lemma loads_snoc_space (c : ascii) (x : string) (v : json) :
  Py.is_space c = true ->
  Json.loads (snoc x c) = Some v -> Json.loads x = Some v.
Proof.
  intros Hc. unfold Json.loads.
  destruct (scan_snoc c Hc (Json.fuel_for (snoc x c))) as (T1 & _ & _).
  destruct (skip_ws_snoc c x) as [[E [E'|E']]|(q & y & E & E')];
    rewrite E'.
  - now rewrite scan_once_empty.
  - change (String c "") with (snoc "" c).
    now rewrite T1, scan_once_empty.
  - change (String q (snoc y c)) with (snoc (String q y) c).
    rewrite T1, E.
    destruct (Json.scan_once (Json.fuel_for (snoc x c)) (String q y))
      as [[v' r]|] eqn:S; [|discriminate].
    cbn [tail_snoc].
    destruct (skip_ws_snoc c r) as [[R [R'|R']]|(q' & y' & R & R')];
      rewrite R'; try discriminate.
    intros H.
    destruct (scan_fuel (Json.fuel_for (snoc x c))) as (F1 & _ & _).
    rewrite (F1 _ _ (Json.fuel_for x) S).
    + now rewrite R.
    + pose proof (skip_ws_length x) as L. rewrite E in L.
      unfold Json.fuel_for. lia.
Qed.

Lemma scan_once_space (c : ascii) (f : nat) (x : string) :
  Py.is_space c = true -> Json.scan_once f (String c x) = None.
Proof.
  intros H. destruct f; [reflexivity|]. each_space H; reflexivity.
Qed.

Lemma loads_cons_space (c : ascii) (x : string) (v : json) :
  Py.is_space c = true ->
  Json.loads (String c x) = Some v -> Json.loads x = Some v.
Proof.
  intros Hc. unfold Json.loads. cbn [Json.skip_ws].
  destruct (Json.is_ws c).
  - destruct (Json.scan_once (Json.fuel_for (String c x)) (Json.skip_ws x))
      as [[v' r]|] eqn:S; [|discriminate].
    destruct (scan_fuel (Json.fuel_for (String c x))) as (F1 & _ & _).
    rewrite (F1 _ _ (Json.fuel_for x) S); [auto|].
    pose proof (skip_ws_length x). unfold Json.fuel_for. lia.
  - now rewrite scan_once_space.
Qed.

Lemma rstrip_trailing (s : string) :
  exists w, s = Py.rstrip s ++ w /\ all_space w = true.
Proof.
  induction s as [|a s (w & E & W)].
  - exists "". split; reflexivity.
  - cbn [Py.rstrip]. destruct (Py.rstrip s) as [|b r'] eqn:R.
    + simpl in E. subst w. destruct (Py.is_space a) eqn:A.
      * exists (String a s). split; [reflexivity|]. simpl. now rewrite A.
      * exists s. split; [reflexivity | exact W].
    + exists w. split; [|exact W]. simpl. now rewrite E at 1.
Qed.

Lemma lstrip_leading (s : string) :
  exists w, s = w ++ Py.lstrip s /\ all_space w = true.
Proof.
  induction s as [|a s (w & E & W)].
  - exists "". split; reflexivity.
  - cbn [Py.lstrip]. destruct (Py.is_space a) eqn:A.
    + exists (String a w). split; [simpl; now rewrite E at 1|].
      simpl. now rewrite A.
    + exists "". split; reflexivity.
Qed.

Lemma loads_drop_trailing (w x : string) (v : json) :
  all_space w = true -> Json.loads (x ++ w) = Some v -> Json.loads x = Some v.
Proof.
  revert x. induction w as [|a w IH]; intros x W H.
  - now rewrite append_empty_r in H.
  - simpl in W. apply andb_true_iff in W. destruct W as [A W].
    apply (loads_snoc_space a); [exact A|].
    apply IH; [exact W|]. unfold snoc. now rewrite append_assoc.
Qed.

Lemma loads_drop_leading (w x : string) (v : json) :
  all_space w = true -> Json.loads (w ++ x) = Some v -> Json.loads x = Some v.
Proof.
  induction w as [|a w IH]; intros W H; [exact H|].
  simpl in W. apply andb_true_iff in W. destruct W as [A W].
  apply IH; [exact W|]. now apply (loads_cons_space a).
Qed.

(** What decodes still decodes, to the same value, once stripped. *)
Lemma loads_strip (s : string) (v : json) :
  Json.loads s = Some v -> Json.loads (Py.strip s) = Some v.
Proof.
  intros H. unfold Py.strip.
  destruct (rstrip_trailing s) as (w & E & W).
  destruct (lstrip_leading (Py.rstrip s)) as (w' & E' & W').
  rewrite E in H. apply loads_drop_trailing in H; [|exact W].
  rewrite E' in H. now apply loads_drop_leading in H.
Qed.

(** ** Response interpreter: the fenced reply *)

Lemma scan_once_backtick (f : nat) (r : string) :
  Json.scan_once f (String Py.backtick r) = None.
Proof. destruct f; reflexivity. Qed.

Lemma loads_fenced (j : string) : Json.loads (fenced j) = None.
Proof.
  unfold Json.loads, fenced, marker. cbn [append Json.skip_ws].
  change (Json.is_ws "`") with false. cbv iota.
  change "`"%char with Py.backtick. now rewrite scan_once_backtick.
Qed.

Lemma length_fenced (j : string) :
  String.length (fenced j) = (12 + String.length j)%nat.
Proof.
  unfold fenced. rewrite !length_append. simpl. lia.
Qed.

Lemma find_marker_fenced (j : string) : Py.find marker (fenced j) 0 = 0.
Proof.
  unfold Py.find. rewrite length_fenced.
  destruct (Z.ltb_spec (Z.of_nat (12 + String.length j)) 0) as [L|_]; [lia|].
  cbn [Z.to_nat Py.drop]. apply find_from_here. apply prefix_append.
Qed.

Lemma contains_marker_fenced (j : string) :
  Py.contains marker (fenced j) = true.
Proof.
  unfold Py.contains. now rewrite find_marker_fenced.
Qed.

Lemma prefix_fence_tail (s : string) :
  prefix fence (s ++ Py.nl ++ fence) = true -> prefix fence s = true.
Proof.
  unfold fence, Py.nl, Py.lf.
  destruct s as [|a [|b [|d s]]]; cbn [append prefix]; intros H;
    repeat match goal with
      | H : context [ascii_dec ?x ?y] |- _ => destruct (ascii_dec x y)
      | |- context [ascii_dec ?x ?y] => destruct (ascii_dec x y)
      end;
    subst; try congruence; destruct s; reflexivity.
Qed.

Lemma find_fence_after (j : string) :
  forall pos pos',
    0 <= pos -> Py.find_from fence j pos < 0 ->
    Py.find_from fence (j ++ Py.nl ++ fence) pos'
    = pos' + Z.of_nat (String.length j) + 1.
Proof.
  induction j as [|a j IH]; intros pos pos' P H.
  - unfold Py.nl, fence. cbn [append String.length].
    rewrite find_from_next by reflexivity.
    rewrite find_from_here by reflexivity. simpl. lia.
  - destruct (prefix fence (String a j)) eqn:E.
    + rewrite find_from_here in H by exact E. lia.
    + rewrite find_from_next in H by exact E.
      cbn [append]. rewrite find_from_next.
      * rewrite (IH (pos + 1) (pos' + 1)) by (try exact H; lia).
        cbn [String.length]. lia.
      * destruct (prefix fence (String a (j ++ Py.nl ++ fence))) eqn:E';
          [|reflexivity].
        apply (prefix_fence_tail (String a j)) in E'. congruence.
Qed.

Lemma take_append (a b : string) : Py.take (String.length a) (a ++ b) = a.
Proof.
  unfold Py.take. induction a as [|x a IH]; simpl.
  - now destruct b.
  - now rewrite IH.
Qed.

Lemma strip_newline (j : string) : Py.strip (Py.nl ++ j) = Py.strip j.
Proof.
  unfold Py.strip, Py.nl. cbn [append Py.rstrip].
  destruct (Py.rstrip j); reflexivity.
Qed.

Lemma rstrip_newline (j : string) : Py.rstrip (j ++ Py.nl) = Py.rstrip j.
Proof.
  induction j as [|a j IH]; [reflexivity|].
  cbn [append Py.rstrip]. now rewrite IH.
Qed.

Lemma extract_fenced (j : string) :
  Py.contains fence j = false -> extract (fenced j) = Py.strip j.
Proof.
  intros C. unfold extract. rewrite find_marker_fenced.
  assert (N : Py.find_from fence j 0 < 0).
  { unfold Py.contains, Py.find in C.
    destruct (Z.ltb_spec (Z.of_nat (String.length j)) 0) as [L|_]; [lia|].
    cbn [Z.to_nat Py.drop] in C. apply Z.leb_gt in C. exact C. }
  assert (D : Py.drop 7 (fenced j) = Py.nl ++ j ++ Py.nl ++ fence)
    by reflexivity.
  assert (F : Py.find fence (fenced j) (0 + 7)
              = 9 + Z.of_nat (String.length j)).
  { unfold Py.find. rewrite length_fenced.
    destruct (Z.ltb_spec (Z.of_nat (12 + String.length j)) (0 + 7)) as [L|_];
      [lia|].
    change (Z.to_nat (0 + 7)) with 7%nat. rewrite D.
    unfold Py.nl at 1. cbn [append].
    rewrite find_from_next by reflexivity.
    rewrite (find_fence_after j 0 (0 + 7 + 1)) by (try exact N; lia). lia. }
  rewrite F. unfold Py.slice, Py.clamp. rewrite length_fenced.
  destruct (Z.ltb_spec (0 + 7) 0) as [L|_]; [lia|].
  destruct (Z.ltb_spec (9 + Z.of_nat (String.length j)) 0) as [L|_]; [lia|].
  rewrite Z.min_l by lia. rewrite Z.min_l by lia.
  change (Z.to_nat (0 + 7)) with 7%nat. rewrite D.
  replace (Z.to_nat (9 + Z.of_nat (String.length j) - (0 + 7)))
    with (String.length (Py.nl ++ j ++ Py.nl))
    by (rewrite !length_append; unfold Py.nl; cbn [String.length]; lia).
  replace (Py.nl ++ j ++ Py.nl ++ fence) with ((Py.nl ++ j ++ Py.nl) ++ fence)
    by (now rewrite !append_assoc).
  rewrite take_append, strip_newline.
  unfold Py.strip. now rewrite rstrip_newline.
Qed.

(** C5 as stated fails: a JSON object whose text holds three backticks
    decodes on its own, and wrapped in a JSON fence the fallback cuts it at
    those backticks and the decoder raises. *)
Lemma fence_inside_object_breaks_fallback :
  Json.loads fence_inside
  = Some (JObj [(Json.ustr "friendly", JStr (Json.ustr "a```b"))])
  /\ snd (parse_response (fenced fence_inside)) = Raise JSONDecodeError.
Proof.
  split; vm_compute; reflexivity.
Qed.

(** C5, amended: for every text that decodes and holds no run of three
    backticks, the reply that wraps it in a JSON fence fails the direct
    parse and yields, through the fallback, the value the text decodes to;
    the three-key object is returned unchanged either way. *)
Theorem fenced_reply_parses_as_bare (j : string) (v : json) :
  Json.loads j = Some v ->
  Py.contains fence j = false ->
  parse_response j = ([j], Ok v)
  /\ Json.loads (fenced j) = None
  /\ parse_response (fenced j) = ([fenced j; Py.strip j], Ok v)
  /\ parse_response three_keys = ([three_keys], Ok three_messages)
  /\ parse_response (fenced three_keys)
     = ([fenced three_keys; three_keys], Ok three_messages).
Proof.
  intros L C. split; [|split; [|split; [|split]]].
  - unfold parse_response. now rewrite L.
  - apply loads_fenced.
  - unfold parse_response.
    rewrite loads_fenced, contains_marker_fenced, (extract_fenced j C).
    now rewrite (loads_strip j v L).
  - vm_compute. reflexivity.
  - vm_compute. reflexivity.
Qed.

Lemma fenced_reply_parses_as_bare_witness :
  parse_response (fenced three_keys)
  = ([fenced three_keys; Py.strip three_keys], Ok three_messages).
Proof.
  apply (fenced_reply_parses_as_bare three_keys three_messages);
    vm_compute; reflexivity.
Defined.

(** ** Output writer *)

Lemma path_eqb_eq (p q : path) : path_eqb p q = true <-> p = q.
Proof.
  revert q. induction p as [|a p IH]; intros [|b q]; simpl;
    try (split; [discriminate | intros H; discriminate H]);
    [tauto|].
  rewrite andb_true_iff, String.eqb_eq, IH.
  split; [intros [-> ->]; reflexivity | intros H; inversion H; auto].
Qed.

Lemma put_same (p : path) (n : node) (f : path -> option node) :
  put p n f p = Some n.
Proof.
  unfold put. now rewrite (proj2 (path_eqb_eq p p) eq_refl).
Qed.

Lemma put_other (p q : path) (n : node) (f : path -> option node) :
  q <> p -> put p n f q = f q.
Proof.
  intros N. unfold put. destruct (path_eqb q p) eqn:E; [|reflexivity].
  apply path_eqb_eq in E. contradiction.
Qed.








(** ** Paths: the directory part and the names of a path *)













(** A bare file name has an empty directory part, and [os.makedirs]
    refuses the empty path: nothing is written. *)
Example save_output_bare_file_name :
  save_output (fun l => l) empty_disk sample_result (Some "out.json")
  = (empty_disk, Raise (OSError "FileNotFoundError")).
Proof. reflexivity. Qed.

(** * Further properties *)

(** ** Requests sent by [generate_outreach_messages] *)


(** The credential [generate_outreach_messages] settles on. *)
Lemma generate_cases
    (w : world) (target_name persona_code platform : string)
    (bio recent_content api_key : option string) :
  (Py.truthy api_key = false /\ Py.truthy (env_api_key w) = false
   /\ generate_outreach_messages w target_name persona_code platform
        bio recent_content api_key = ([], Raise missing_credential))
  \/ exists key,
       key <> ""
       /\ (Py.truthy api_key = true -> api_key = Some key)
       /\ (Py.truthy api_key = false -> env_api_key w = Some key)
       /\ ((lookup persona_code PERSONAS = None
            /\ generate_outreach_messages w target_name persona_code platform
                 bio recent_content api_key
               = ([], Raise (invalid_persona persona_code)))
           \/ exists info req,
                lookup persona_code PERSONAS = Some info
                /\ req = {| req_api_key := key;
                            req_model := "claude-sonnet-4-20250514";
                            req_max_tokens := 1024;
                            req_prompt :=
                              compose_prompt target_name platform bio
                                recent_content info
                                (build_persona_url persona_code
                                   (generate_referral_hash target_name)
                                   default_base_url) |}
                /\ ((exists msg,
                       service w req = Failure msg
                       /\ generate_outreach_messages w target_name
                            persona_code platform bio recent_content api_key
                          = ([req], Raise (APIError msg)))
                    \/ (exists text e,
                          service w req = Reply text
                          /\ snd (parse_response (Py.strip text)) = Raise e
                          /\ generate_outreach_messages w target_name
                               persona_code platform bio recent_content
                               api_key = ([req], Raise e))
                    \/ (exists text m,
                          service w req = Reply text
                          /\ snd (parse_response (Py.strip text)) = Ok m
                          /\ generate_outreach_messages w target_name
                               persona_code platform bio recent_content
                               api_key
                             = ([req],
                                Ok {| target := target_name;
                                      persona := persona_code;
                                      platform := platform;
                                      referral_hash :=
                                        generate_referral_hash target_name;
                                      url :=
                                        build_persona_url persona_code
                                          (generate_referral_hash target_name)
                                          default_base_url;
                                      messages := m |})))).
Proof.
  unfold generate_outreach_messages.
  destruct (if Py.truthy api_key then api_key else env_api_key w)
    as [[|k0 k]|] eqn:C.
  - left. destruct (Py.truthy api_key) eqn:K.
    + subst api_key. discriminate K.
    + rewrite C. repeat split.
  - right. exists (String k0 k). split; [discriminate|].
    split; [intros K; now rewrite K in C|].
    split; [intros K; now rewrite K in C|].
    destruct (lookup persona_code PERSONAS) as [info|]; [right | left; auto].
    eexists. eexists. split; [reflexivity|]. split; [reflexivity|].
    match goal with
    | |- context [service w ?r] => destruct (service w r) as [text|msg]
    end.
    + right. destruct (snd (parse_response (Py.strip text))) as [m|e] eqn:P.
      * right. exists text, m. repeat split. exact P.
      * left. exists text, e. repeat split. exact P.
    + left. exists msg. split; reflexivity.
  - left. destruct (Py.truthy api_key) eqn:K.
    + subst api_key. discriminate K.
    + rewrite C. repeat split.
Qed.



(** X2: the request carries the [api_key] argument when one is given, the
    value of the environment variable otherwise, and always the same model
    name and token ceiling. *)
Theorem argument_credential_overrides_environment
    (w : world) (target_name persona_code platform : string)
    (bio recent_content api_key : option string) (req : request) :
  In req (fst (generate_outreach_messages w target_name persona_code
                 platform bio recent_content api_key)) ->
  (Py.truthy api_key = true -> api_key = Some (req_api_key req))
  /\ (Py.truthy api_key = false -> env_api_key w = Some (req_api_key req))
  /\ req_api_key req <> ""
  /\ req_model req = "claude-sonnet-4-20250514"
  /\ req_max_tokens req = 1024.
Proof.
  destruct (generate_cases w target_name persona_code platform bio
              recent_content api_key)
    as [(K & E & G)|(key & N & A & B & [[L G]|(info & r & L & R & G)])].
  - rewrite G. intros [].
  - rewrite G. intros [].
  - assert (S : fst (generate_outreach_messages w target_name persona_code
                       platform bio recent_content api_key) = [r]).
    { destruct G as [(msg & _ & G)|[(text & e & _ & _ & G)|(text & m & _ & _ & G)]];
        now rewrite G. }
    rewrite S. intros [<-|[]]. subst r. cbn [req_api_key req_model req_max_tokens].
    repeat split; assumption.
Qed.

Lemma argument_credential_overrides_environment_witness :
  map req_api_key
    (fst (generate_outreach_messages down_world "Sean Forbes" "d" "Instagram"
            None None (Some "sk-arg"))) = ["sk-arg"].
Proof.
  pose proof (argument_credential_overrides_environment down_world
                "Sean Forbes" "d" "Instagram" None None (Some "sk-arg")) as T.
  destruct (fst (generate_outreach_messages down_world "Sean Forbes" "d"
                   "Instagram" None None (Some "sk-arg")))
    as [|req [|req' rest]] eqn:E;
    try (vm_compute in E; discriminate E).
  destruct (T req (or_introl eq_refl)) as (A & _).
  specialize (A eq_refl). injection A as A. cbn [map]. now rewrite <- A.
Defined.



(** ** Errors of a run *)



(** X5: when the messages cannot be generated, [main] reports the error
    that was raised, exits with status 1 and leaves the disk as it
    was. *)
Theorem generation_failure_exits_1
    (float_repr : string -> string) (w : world)
    (load_config : string -> result target_config)
    (fs : filesystem) (a : args)
    (n0 p0 l0 : ascii) (n p l : string) (e : error) :
  arg_config a = None ->
  arg_name a = Some (String n0 n) ->
  arg_persona a = Some (String p0 p) ->
  arg_platform a = Some (String l0 l) ->
  snd (generate_outreach_messages w (String n0 n) (String p0 p) (String l0 l)
         (arg_bio a) (arg_content a) None) = Raise e ->
  main float_repr w load_config fs a
  = {| ending := Failed e;
       sent := fst (generate_outreach_messages w (String n0 n) (String p0 p)
                      (String l0 l) (arg_bio a) (arg_content a) None);
       disk := fs |}
  /\ exit_status (ending (main float_repr w load_config fs a)) = 1.
Proof.
  intros C N P L H.
  assert (E : main float_repr w load_config fs a
              = {| ending := Failed e;
                   sent := fst (generate_outreach_messages w (String n0 n)
                                  (String p0 p) (String l0 l) (arg_bio a)
                                  (arg_content a) None);
                   disk := fs |}).
  { unfold main, generate_and_save. rewrite C, N, P, L.
    destruct (generate_outreach_messages w (String n0 n) (String p0 p)
                (String l0 l) (arg_bio a) (arg_content a) None)
      as [reqs [r|e']]; cbn [snd fst] in *; [discriminate H|].
    now inversion H. }
  rewrite E. split; reflexivity.
Qed.

Lemma generation_failure_exits_1_witness :
  exit_status
    (ending (main (fun l => l) down_world no_config empty_disk
               full_arguments)) = 1
  /\ disk (main (fun l => l) down_world no_config empty_disk full_arguments)
     = empty_disk.
Proof.
  destruct (generation_failure_exits_1 (fun l => l) down_world no_config
              empty_disk full_arguments "S" "d" "I" "ean Forbes" ""
              "nstagram" (APIError "overloaded")) as [E S];
    try reflexivity.
  split; [exact S | now rewrite E].
Defined.

(** X6: when the reply decodes to a value that is not an object, the
    file is written all the same; without [--quiet] the run then fails
    while printing and exits with status 1, with [--quiet] it exits with
    status 0. *)
Theorem non_object_reply_saved_then_fails
    (float_repr : string -> string) (w : world)
    (load_config : string -> result target_config)
    (fs fs' : filesystem) (a : args)
    (n0 p0 l0 : ascii) (n p l output_file : string)
    (reqs : list request) (r : outreach_result) :
  arg_config a = None ->
  arg_name a = Some (String n0 n) ->
  arg_persona a = Some (String p0 p) ->
  arg_platform a = Some (String l0 l) ->
  generate_outreach_messages w (String n0 n) (String p0 p) (String l0 l)
    (arg_bio a) (arg_content a) None = (reqs, Ok r) ->
  (forall pairs, messages r <> JObj pairs) ->
  save_output float_repr fs r (arg_output a) = (fs', Ok output_file) ->
  disk (main float_repr w load_config fs a) = fs'
  /\ sent (main float_repr w load_config fs a) = reqs
  /\ (arg_quiet a = false ->
      exists msg,
        ending (main float_repr w load_config fs a)
        = Failed (AttributeError msg)
        /\ exit_status (ending (main float_repr w load_config fs a)) = 1)
  /\ (arg_quiet a = true ->
      ending (main float_repr w load_config fs a) = Saved output_file
      /\ exit_status (ending (main float_repr w load_config fs a)) = 0).
Proof.
  intros C N P L G M S.
  assert (F : exists msg, print_result r = Raise (AttributeError msg)).
  { unfold print_result.
    destruct (messages r) as [| | | | | |pairs] eqn:E;
      [eexists; reflexivity ..|now elim (M pairs)]. }
  destruct F as [msg F].
  unfold main, generate_and_save. rewrite C, N, P, L, G, S, F.
  destruct (arg_quiet a); cbn [disk sent ending].
  - split; [reflexivity|]. split; [reflexivity|].
    split; [discriminate | intros _; split; reflexivity].
  - split; [reflexivity|]. split; [reflexivity|].
    split; [intros _; exists msg; split; reflexivity | discriminate].
Qed.

Lemma non_object_reply_saved_then_fails_witness :
  exit_status
    (ending (main (fun l => l) list_world no_config empty_disk
               full_arguments)) = 1
  /\ exit_status
       (ending (main (fun l => l) list_world no_config empty_disk
                  quiet_arguments)) = 0
  /\ stat (disk (main (fun l => l) list_world no_config empty_disk
                   full_arguments)) "tools/outreach/sean-forbes-d.json"
     <> None.
Proof.
  destruct (generate_outreach_messages list_world "Sean Forbes" "d"
              "Instagram" (Some "") None None) as [reqs [r|e]] eqn:G;
    [|vm_compute in G; discriminate G].
  destruct (generate_outreach_messages list_world "Sean Forbes" "d"
              "Instagram" None None None) as [reqs' [r'|e']] eqn:G';
    [|vm_compute in G'; discriminate G'].
  destruct (save_output (fun l => l) empty_disk r None) as [fs' [o|e]] eqn:S;
    [|vm_compute in G; inversion G; subst; vm_compute in S; discriminate S].
  destruct (save_output (fun l => l) empty_disk r' None) as [fs'' [o'|e]] eqn:S';
    [|vm_compute in G'; inversion G'; subst; vm_compute in S'; discriminate S'].
  destruct (non_object_reply_saved_then_fails (fun l => l) list_world
              no_config empty_disk fs' full_arguments "S" "d" "I"
              "ean Forbes" "" "nstagram" o reqs r)
    as (D & _ & (msg & _ & Q) & _); try reflexivity; try assumption.
  { vm_compute in G. inversion G; subst. discriminate. }
  destruct (non_object_reply_saved_then_fails (fun l => l) list_world
              no_config empty_disk fs'' quiet_arguments "S" "d" "I"
              "ean Forbes" "" "nstagram" o' reqs' r')
    as (_ & _ & _ & _ & Q'); try reflexivity; try assumption.
  { vm_compute in G'. inversion G'; subst. discriminate. }
  split; [exact Q|]. split; [exact Q'|].
  vm_compute. discriminate.
Defined.

(** X7: with [--config], the name, persona, platform, bio and content
    given on the command line are not used: two command lines with the
    same config file, output path and quiet flag run alike; and when the
    config file cannot be loaded the run ends with status 1 before any
    request is sent or any file is written. *)
Theorem config_file_overrides_flags
    (float_repr : string -> string) (w : world)
    (load_config : string -> result target_config)
    (fs : filesystem) (a a' : args) :
  Py.truthy (arg_config a) = true ->
  arg_config a' = arg_config a ->
  arg_output a' = arg_output a ->
  arg_quiet a' = arg_quiet a ->
  main float_repr w load_config fs a' = main float_repr w load_config fs a
  /\ forall path e,
       arg_config a = Some path -> load_config path = Raise e ->
       main float_repr w load_config fs a
       = {| ending := Crashed e; sent := []; disk := fs |}
       /\ exit_status (ending (main float_repr w load_config fs a)) = 1.
Proof.
  intros T C O Q. unfold main. rewrite C, O, Q.
  destruct (arg_config a) as [[|c0 c]|]; try discriminate T.
  split; [reflexivity|].
  intros path e P L. inversion P; subst. rewrite L. split; reflexivity.
Qed.

Lemma config_file_overrides_flags_witness :
  main (fun l => l) ready_world sample_config empty_disk config_and_flags
  = main (fun l => l) ready_world sample_config empty_disk config_only.
Proof.
  apply (config_file_overrides_flags (fun l => l) ready_world sample_config
           empty_disk config_only config_and_flags); reflexivity.
Defined.

(** X8: an empty [--name], [--persona] or [--platform] counts as missing,
    and an empty [--config] as not given: the run ends in the usage error
    with status 2, nothing sent, nothing written. *)
Theorem empty_arguments_count_as_missing
    (float_repr : string -> string) (w : world)
    (load_config : string -> result target_config)
    (fs : filesystem) (a : args) :
  Py.truthy (arg_config a) = false ->
  Py.truthy (arg_name a) && Py.truthy (arg_persona a)
    && Py.truthy (arg_platform a) = false ->
  main float_repr w load_config fs a
  = {| ending := Usage usage_message; sent := []; disk := fs |}
  /\ exit_status (ending (main float_repr w load_config fs a)) = 2.
Proof.
  intros C M.
  assert (E : main float_repr w load_config fs a
              = {| ending := Usage usage_message; sent := []; disk := fs |}).
  { unfold main.
    destruct (arg_config a) as [[|c0 c]|]; try discriminate C;
      destruct (arg_name a) as [[|n0 n]|]; try reflexivity;
      destruct (arg_persona a) as [[|p0 p]|]; try reflexivity;
      destruct (arg_platform a) as [[|l0 l]|]; try reflexivity;
      discriminate M. }
  rewrite E. split; reflexivity.
Qed.

Lemma empty_arguments_count_as_missing_witness :
  main (fun l => l) ready_world sample_config empty_disk empty_name
  = {| ending := Usage usage_message; sent := []; disk := empty_disk |}.
Proof.
  apply (empty_arguments_count_as_missing (fun l => l) ready_world
           sample_config empty_disk empty_name); reflexivity.
Defined.

(** ** Output writer: the edges *)

Lemma head_part_no_slash (p : string) :
  has_slash p = false -> head_part p = "".
Proof.
  unfold has_slash. rewrite negb_false_iff.
  induction p as [|a p IH]; [reflexivity|].
  cbn [all_chars head_part]. intros H. apply andb_true_iff in H.
  destruct H as [A H]. rewrite (IH H).
  apply negb_true_iff in A. now rewrite A.
Qed.

(** X9: an output path given without any slash is never written: its
    directory part is empty, [os.makedirs] refuses it, and [save_output]
    raises with the disk as it was. *)
Theorem bare_file_name_not_written
    (float_repr : string -> string) (fs : filesystem)
    (r : outreach_result) (output_file : string) :
  output_file <> "" ->
  has_slash output_file = false ->
  save_output float_repr fs r (Some output_file)
  = (fs, Raise (OSError "FileNotFoundError")).
Proof.
  intros N S. unfold save_output, output_path.
  destruct output_file as [|c f]; [contradiction|].
  unfold dirname. rewrite (head_part_no_slash _ S). reflexivity.
Qed.

Lemma bare_file_name_not_written_witness :
  save_output (fun l => l) empty_disk sample_result (Some "messages.json")
  = (empty_disk, Raise (OSError "FileNotFoundError")).
Proof.
  apply (bare_file_name_not_written (fun l => l) empty_disk sample_result
           "messages.json"); [discriminate | reflexivity].
Defined.

(** ** Referral hash: what the normalization forgets *)

Lemma lower_char_idempotent (c : ascii) :
  Py.lower_char (Py.lower_char c) = Py.lower_char c.
Proof.
  destruct c as [[] [] [] [] [] [] [] []]; reflexivity.
Qed.

Lemma lower_char_space (c : ascii) :
  Ascii.eqb (Py.lower_char c) " " = Ascii.eqb c " ".
Proof.
  destruct c as [[] [] [] [] [] [] [] []]; reflexivity.
Qed.

Lemma lower_char_apostrophe (c : ascii) :
  Ascii.eqb (Py.lower_char c) "'" = Ascii.eqb c "'".
Proof.
  destruct c as [[] [] [] [] [] [] [] []]; reflexivity.
Qed.

Lemma lower_idempotent (s : string) : Py.lower (Py.lower s) = Py.lower s.
Proof.
  induction s as [|c s IH]; simpl; [reflexivity|].
  now rewrite lower_char_idempotent, IH.
Qed.

Lemma lower_append (a b : string) :
  Py.lower (a ++ b) = Py.lower a ++ Py.lower b.
Proof.
  induction a as [|c a IH]; simpl; [reflexivity | now rewrite IH].
Qed.

(** Lowering commutes with the two replacements. *)
Lemma lower_replace_space (s : string) :
  Py.lower (Py.replace " " "-" s) = Py.replace " " "-" (Py.lower s).
Proof.
  induction s as [|c s IH]; [reflexivity|].
  cbn [Py.replace Py.lower]. rewrite lower_char_space.
  destruct (Ascii.eqb c " "); simpl; now rewrite IH.
Qed.

Lemma lower_replace_apostrophe (s : string) :
  Py.lower (Py.replace "'" "" s) = Py.replace "'" "" (Py.lower s).
Proof.
  induction s as [|c s IH]; [reflexivity|].
  cbn [Py.replace Py.lower]. rewrite lower_char_apostrophe.
  destruct (Ascii.eqb c "'"); simpl; now rewrite IH.
Qed.

Lemma replace_space_idempotent (s : string) :
  Py.replace " " "-" (Py.replace " " "-" s) = Py.replace " " "-" s.
Proof.
  induction s as [|c s IH]; [reflexivity|].
  cbn [Py.replace]. destruct (Ascii.eqb c " ") eqn:E.
  - simpl. now rewrite IH.
  - cbn [Py.replace]. now rewrite E, IH.
Qed.

Lemma replace_apostrophe_idempotent (s : string) :
  Py.replace "'" "" (Py.replace "'" "" s) = Py.replace "'" "" s.
Proof.
  induction s as [|c s IH]; [reflexivity|].
  cbn [Py.replace]. destruct (Ascii.eqb c "'") eqn:E.
  - simpl. exact IH.
  - cbn [Py.replace]. now rewrite E, IH.
Qed.

Lemma replace_space_apostrophe (s : string) :
  Py.replace " " "-" (Py.replace "'" "" s)
  = Py.replace "'" "" (Py.replace " " "-" s).
Proof.
  induction s as [|c s IH]; [reflexivity|].
  cbn [Py.replace].
  destruct (Ascii.eqb c "'") eqn:A; destruct (Ascii.eqb c " ") eqn:B.
  - apply Ascii.eqb_eq in A, B. congruence.
  - simpl. rewrite A. exact IH.
  - cbn [Py.replace]. rewrite B. simpl. now rewrite IH.
  - cbn [Py.replace]. now rewrite A, B, IH.
Qed.

Lemma clean_name_lower (name : string) :
  clean_name (Py.lower name) = clean_name name.
Proof.
  unfold clean_name. now rewrite lower_idempotent.
Qed.

Lemma clean_name_replace_space (name : string) :
  clean_name (Py.replace " " "-" name) = clean_name name.
Proof.
  unfold clean_name.
  now rewrite lower_replace_space, replace_space_idempotent.
Qed.

Lemma clean_name_replace_apostrophe (name : string) :
  clean_name (Py.replace "'" "" name) = clean_name name.
Proof.
  unfold clean_name.
  now rewrite lower_replace_apostrophe, replace_space_apostrophe,
    replace_apostrophe_idempotent.
Qed.

Lemma clean_name_idempotent (name : string) :
  clean_name (clean_name name) = clean_name name.
Proof.
  transitivity (clean_name (Py.replace " " "-" (Py.lower name))).
  - apply clean_name_replace_apostrophe.
  - now rewrite clean_name_replace_space, clean_name_lower.
Qed.

(** X10: the referral hash does not tell apart names that differ in letter
    case only, in spaces written as hyphens, or in apostrophes: each of the
    three rewritings of a name, and all three together, leave its hash as
    it is. *)
Theorem referral_hash_forgets_case_spaces_apostrophes (name : string) :
  generate_referral_hash (Py.lower name) = generate_referral_hash name
  /\ generate_referral_hash (Py.replace " " "-" name)
     = generate_referral_hash name
  /\ generate_referral_hash (Py.replace "'" "" name)
     = generate_referral_hash name
  /\ generate_referral_hash (clean_name name) = generate_referral_hash name.
Proof.
  unfold generate_referral_hash.
  now rewrite clean_name_lower, clean_name_replace_space,
    clean_name_replace_apostrophe, clean_name_idempotent.
Qed.

Lemma all_chars_append (P : ascii -> bool) (a b : string) :
  all_chars P (a ++ b) = all_chars P a && all_chars P b.
Proof.
  induction a as [|c a IH]; simpl; [reflexivity|].
  now rewrite IH, andb_assoc.
Qed.

Lemma all_chars_take (P : ascii -> bool) (k : nat) (s : string) :
  all_chars P s = true -> all_chars P (Py.take k s) = true.
Proof.
  unfold Py.take. revert s.
  induction k as [|k IH]; intros [|c s] H; simpl in *; try reflexivity.
  apply andb_true_iff in H. destruct H as [H1 H2].
  now rewrite H1, IH.
Qed.

Lemma clean_name_chars (name : string) :
  all_chars clean_char (clean_name name) = true.
Proof.
  unfold clean_name. induction name as [|c s IH]; [reflexivity|].
  cbn [Py.lower Py.replace]. rewrite lower_char_space.
  destruct (Ascii.eqb c " ") eqn:S.
  - simpl. exact IH.
  - cbn [Py.replace]. rewrite lower_char_apostrophe.
    destruct (Ascii.eqb c "'") eqn:A; [exact IH|].
    cbn [all_chars]. rewrite IH, andb_true_r. unfold clean_char.
    now rewrite lower_char_space, lower_char_apostrophe, S, A,
      lower_char_idempotent, Ascii.eqb_refl.
Qed.

Lemma lower_hex_clean (c : ascii) : is_lower_hex c = true -> clean_char c = true.
Proof.
  destruct c as [[] [] [] [] [] [] [] []]; intros H;
    try discriminate H; reflexivity.
Qed.

(** X11: no character of a referral hash is a space, an apostrophe or a
    letter that has a lowercase form. *)
Theorem referral_hash_characters (name : string) :
  all_chars clean_char (generate_referral_hash name) = true.
Proof.
  unfold generate_referral_hash.
  destruct (hexdigest_head (Py.encode (clean_name name)))
    as (h1 & h2 & rest & E & L1 & L2 & _).
  rewrite all_chars_append, (all_chars_take _ _ _ (clean_name_chars name)).
  rewrite E. unfold Py.take. simpl.
  rewrite (lower_hex_clean _ L1), (lower_hex_clean _ L2).
  now destruct rest.
Qed.

(** ** Response interpreter: fences amid prose, fences left open *)

Lemma find_from_range (sub s : string) :
  forall pos, 0 <= pos ->
    Py.find_from sub s pos = -1 \/ pos <= Py.find_from sub s pos.
Proof.
  induction s as [|c s IH]; intros pos P.
  - unfold Py.find_from. destruct (prefix sub ""); [right; lia | now left].
  - destruct (prefix sub (String c s)) eqn:E.
    + rewrite find_from_here by exact E. right. lia.
    + rewrite find_from_next by exact E.
      destruct (IH (pos + 1)) as [H|H]; [lia | now left | right; lia].
Qed.














(** ** Output writer: what is on the disk afterwards *)

Lemma walk_put_file (t : path) (content : string) (f : path -> option node)
    (names : list string) :
  f t <> Some Dir ->
  forall cur d,
    walk f cur names = Some d ->
    walk (put t (File content) f) cur names = Some d.
Proof.
  intros T. induction names as [|c rest IH]; intros cur d H.
  - cbn [walk] in *. destruct (f cur) as [[x|]|] eqn:E; try discriminate H.
    rewrite put_other by congruence. now rewrite E.
  - cbn [walk] in *. destruct (f cur) as [[x|]|] eqn:E; try discriminate H.
    rewrite put_other by congruence. rewrite E.
    destruct (stays c); [now apply IH|].
    destruct (String.eqb c ".."); now apply IH.
Qed.

Lemma open_write_stat (name content : string) (fs fs' : filesystem) :
  open_write name content fs = Ok fs' ->
  stat fs' name = Some (File content) /\ cwd fs' = cwd fs.
Proof.
  unfold open_write, stat. destruct name as [|c0 n]; [discriminate|].
  cbv beta iota zeta. remember (String c0 n) as name eqn:Hn. clear Hn.
  destruct (walk (nodes fs) (start fs name) (removelast (components name)))
    as [d|] eqn:W; [|discriminate].
  destruct (stays (last (components name) "")) eqn:S1; [discriminate|].
  destruct (String.eqb (last (components name) "") "..") eqn:S2;
    [discriminate|].
  cbn [orb]. intros H.
  assert (N : nodes fs (d ++ [last (components name) ""])%list <> Some Dir).
  { intros E. rewrite E in H. discriminate H. }
  assert (F : fs' = {| cwd := cwd fs;
                       nodes := put (d ++ [last (components name) ""])%list
                                  (File content) (nodes fs) |}).
  { destruct (nodes fs (d ++ [last (components name) ""])%list)
      as [[x|]|]; congruence. }
  clear H. subst fs'. unfold start. cbn [cwd nodes]. fold (start fs name).
  rewrite (walk_put_file _ content _ _ N _ _ W).
  split; [apply put_same | reflexivity].
Qed.

Lemma makedirs_cwd (name : string) (fs fs' : filesystem) :
  makedirs name fs = Ok fs' -> cwd fs' = cwd fs.
Proof.
  unfold makedirs. destruct name; [discriminate|].
  destruct (mkdirs _ _ _); intros H; inversion H. reflexivity.
Qed.

Lemma save_output_result
    (float_repr : string -> string) (fs fs' : filesystem)
    (r : outreach_result) (output_file : option string) (p : string) :
  save_output float_repr fs r output_file = (fs', Ok p) ->
  p = output_path r output_file
  /\ (Py.truthy output_file = true -> output_file = Some p)
  /\ stat fs' p = Some (File (dumps float_repr 0 (result_dict r)))
  /\ cwd fs' = cwd fs.
Proof.
  unfold save_output.
  destruct (makedirs (dirname (output_path r output_file)) fs)
    as [fs1|e] eqn:M; [|discriminate].
  destruct (open_write (output_path r output_file)
              (dumps float_repr 0 (result_dict r)) fs1) as [fs2|e] eqn:O;
    [|discriminate].
  intros H. inversion H; subst fs' p.
  destruct (open_write_stat _ _ _ _ O) as [S C].
  split; [reflexivity|]. split.
  - destruct output_file as [[|c f]|]; try discriminate. reflexivity.
  - split; [exact S|]. rewrite C. now apply makedirs_cwd in M.
Qed.

(** X14: whenever [save_output] returns, the path it returns is the one
    given, or the derived one when none or an empty one was given, and
    that path names on the disk a file holding the pretty-printed
    record. *)
Theorem saved_file_holds_record
    (float_repr : string -> string) (fs fs' : filesystem)
    (r : outreach_result) (output_file : option string) (p : string) :
  save_output float_repr fs r output_file = (fs', Ok p) ->
  p = output_path r output_file
  /\ (Py.truthy output_file = true -> output_file = Some p)
  /\ stat fs' p = Some (File (dumps float_repr 0 (result_dict r)))
  /\ cwd fs' = cwd fs.
Proof.
  apply save_output_result.
Qed.

Lemma saved_file_holds_record_witness :
  exists fs',
    save_output (fun l => l) empty_disk sample_result
      (Some "out/sean.json") = (fs', Ok "out/sean.json")
    /\ stat fs' "out/sean.json"
       = Some (File (dumps (fun l => l) 0 (result_dict sample_result))).
Proof.
  destruct (save_output (fun l => l) empty_disk sample_result
              (Some "out/sean.json")) as [fs' [p|e]] eqn:E;
    [|vm_compute in E; discriminate E].
  destruct (saved_file_holds_record _ _ _ _ _ _ E) as (P & _ & S & _).
  exists fs'. subst p. split; [reflexivity | exact S].
Defined.













(** ** What [json.dump] writes, [json.loads] reads back *)

Lemma code_chr (n : Z) : 0 <= n < 256 -> Py.code (Py.chr n) = n.
Proof.
  intros H. unfold Py.code, Py.chr.
  rewrite nat_ascii_embedding by lia. lia.
Qed.

Lemma hex_val_digit (x : Z) :
  Json.hex_val (MD5.hex_digit x) = Some (x mod 16).
Proof.
  unfold MD5.hex_digit.
  assert (H : 0 <= x mod 16 < 16) by (apply Z.mod_pos_bound; lia).
  destruct (x mod 16) as [|p|p]; try lia; [reflexivity|].
  do 4 (destruct p as [p|p|]; try lia; try reflexivity).
Qed.

Lemma hex_value (n : Z) :
  0 <= n < 65536 ->
  16 * (16 * (16 * (16 * 0 + (n / 4096) mod 16) + (n / 256) mod 16)
        + (n / 16) mod 16) + n mod 16 = n.
Proof.
  intros H. Z.div_mod_to_equations. lia.
Qed.

Lemma scan_hex (n : Z) (t : string) :
  0 <= n < 65536 ->
  Json.scan_string_from (Json.Hex 4 0) (hex4_of n ++ t)
  = if Json.is_high n then Json.scan_string_from (Json.High n) t
    else Json.push n (Json.scan_string_from Json.Plain t).
Proof.
  intros H. unfold hex4_of. cbn [append Json.scan_string_from].
  rewrite !hex_val_digit. cbv zeta. now rewrite (hex_value n H).
Qed.

Lemma scan_high_hex (u n : Z) (t : string) :
  0 <= n < 65536 ->
  Json.scan_string_from (Json.HighHex u 4 0) (hex4_of n ++ t)
  = if Json.is_low n then
      Json.push (Json.join_surrogates u n)
        (Json.scan_string_from Json.Plain t)
    else if Json.is_high n then
      Json.push u (Json.scan_string_from (Json.High n) t)
    else Json.push u (Json.push n (Json.scan_string_from Json.Plain t)).
Proof.
  intros H. unfold hex4_of. cbn [append Json.scan_string_from].
  rewrite !hex_val_digit. cbv zeta. now rewrite (hex_value n H).
Qed.

Lemma lor_low (a b : Z) :
  0 <= b < 1024 -> Z.land a 1023 = 0 -> Z.lor a b = a + b.
Proof.
  intros B A. pose proof (Z.add_lor_land a b) as H.
  assert (E : Z.land a b = 0).
  { replace b with (Z.land b (Z.ones 10)).
    - change (Z.ones 10) with 1023.
      rewrite (Z.land_comm b), Z.land_assoc, A. apply Z.land_0_l.
    - rewrite Z.land_ones by lia. apply Z.mod_small. lia. }
  lia.
Qed.

Lemma surrogates_of (m : Z) :
  0 <= m < 1048576 ->
  Z.lor 0xd800 (Z.land (Z.shiftr m 10) 0x3ff) = 0xd800 + m / 1024
  /\ Z.lor 0xdc00 (Z.land m 0x3ff) = 0xdc00 + m mod 1024.
Proof.
  intros H.
  change 0x3ff with (Z.ones 10). rewrite !Z.land_ones by lia.
  rewrite Z.shiftr_div_pow2 by lia. change (2 ^ 10) with 1024.
  assert (Q : (m / 1024) mod 1024 = m / 1024)
    by (Z.div_mod_to_equations; lia).
  rewrite Q.
  split; apply lor_low; try reflexivity; Z.div_mod_to_equations; lia.
Qed.

(** One escaped code point is read back as that code point. *)
Lemma scan_escaped_char (n : Z) (t : string) :
  valid_code n = true ->
  Json.scan_string_from Json.Plain (escape_char n ++ t)
  = Json.push n (Json.scan_string_from Json.Plain t).
Proof.
  unfold valid_code. rewrite !andb_true_iff, negb_true_iff.
  intros [[L U] NH]. apply Z.leb_le in L. apply Z.ltb_lt in U.
  unfold escape_char.
  destruct (Z.eqb_spec n 34) as [->|N34]; [reflexivity|].
  destruct (Z.eqb_spec n 92) as [->|N92]; [reflexivity|].
  destruct (Z.eqb_spec n 10) as [->|N10]; [reflexivity|].
  destruct (Z.eqb_spec n 13) as [->|N13]; [reflexivity|].
  destruct (Z.eqb_spec n 9) as [->|N9]; [reflexivity|].
  destruct (Z.eqb_spec n 8) as [->|N8]; [reflexivity|].
  destruct (Z.eqb_spec n 12) as [->|N12]; [reflexivity|].
  destruct ((32 <=? n) && (n <=? 126)) eqn:Pr.
  - apply andb_true_iff in Pr. destruct Pr as [P1 P2].
    apply Z.leb_le in P1. apply Z.leb_le in P2.
    cbn [append Json.scan_string_from]. cbv zeta.
    rewrite code_chr by lia.
    destruct (Z.eqb_spec n 34); [contradiction|].
    destruct (Z.eqb_spec n 92); [contradiction|].
    destruct (Z.leb_spec n 31); [lia | reflexivity].
  - destruct (Z.ltb_spec n 65536) as [Lt|Ge].
    + change ("\u" ++ hex4_of n) with (String "\" (String "u" (hex4_of n))).
      cbn [append Json.scan_string_from]. cbv zeta.
      change (Py.code "\" =? 34) with false.
      change (Py.code "\" =? 92) with true.
      change (Py.code "u" =? 117) with true. cbv iota.
      rewrite scan_hex by lia. now rewrite NH.
    + set (m := n - 65536).
      destruct (surrogates_of m) as [Hi Lo]; [unfold m; lia|].
      rewrite Hi, Lo.
      assert (Qb : 0 <= m / 1024 < 1024)
        by (unfold m; Z.div_mod_to_equations; lia).
      assert (Rb : 0 <= m mod 1024 < 1024)
        by (Z.div_mod_to_equations; lia).
      rewrite !append_assoc.
      change ("\u" ++ hex4_of (55296 + m / 1024)
                   ++ "\u" ++ hex4_of (56320 + m mod 1024) ++ t)
        with (String "\" (String "u"
                (hex4_of (55296 + m / 1024)
                 ++ String "\" (String "u"
                      (hex4_of (56320 + m mod 1024) ++ t))))).
      cbn [Json.scan_string_from]. cbv zeta.
      change (Py.code "\" =? 34) with false.
      change (Py.code "\" =? 92) with true.
      change (Py.code "u" =? 117) with true. cbv iota.
      rewrite scan_hex by lia.
      assert (H1 : Json.is_high (55296 + m / 1024) = true).
      { unfold Json.is_high. apply andb_true_iff.
        split; [apply Z.leb_le | apply Z.leb_le]; lia. }
      rewrite H1. cbn [Json.scan_string_from]. cbv zeta.
      change (Py.code "\" =? 34) with false.
      change (Py.code "\" =? 92) with true.
      change (Py.code "u" =? 117) with true. cbv iota.
      rewrite scan_high_hex by lia.
      assert (H2 : Json.is_low (56320 + m mod 1024) = true).
      { unfold Json.is_low. apply andb_true_iff.
        split; [apply Z.leb_le | apply Z.leb_le]; lia. }
      rewrite H2. f_equal. unfold Json.join_surrogates.
      unfold m in *. Z.div_mod_to_equations. lia.
Qed.

(** *** Integers *)

Lemma digits_value_acc (d : Decimal.uint) (acc : positive) :
  Json.digits_value (Z.pos acc) (NilEmpty.string_of_uint d)
  = Z.pos (Pos.of_uint_acc d acc).
Proof.
  revert acc.
  induction d as [|d IH|d IH|d IH|d IH|d IH|d IH|d IH|d IH|d IH|d IH];
    intros acc; cbn [NilEmpty.string_of_uint Json.digits_value Pos.of_uint_acc];
    [reflexivity|..];
    rewrite <- IH; f_equal;
    match goal with
    | |- context [Py.code ?c] =>
        let v := eval vm_compute in (Py.code c) in
        change (Py.code c) with v
    end; lia.
Qed.

Lemma digits_value_of_uint (d : Decimal.uint) :
  Json.digits_value 0 (NilEmpty.string_of_uint d) = Z.of_N (Pos.of_uint d).
Proof.
  induction d as [|d IH|d IH|d IH|d IH|d IH|d IH|d IH|d IH|d IH|d IH];
    cbn [NilEmpty.string_of_uint Json.digits_value Pos.of_uint];
    [reflexivity | exact IH |..];
    cbn [Z.of_N]; rewrite <- digits_value_acc; reflexivity.
Qed.

Lemma span_digits_uint (d : Decimal.uint) (tail : string) :
  follows tail = true ->
  Json.span_digits (NilEmpty.string_of_uint d ++ tail)
  = (NilEmpty.string_of_uint d, tail).
Proof.
  intros F.
  induction d as [|d IH|d IH|d IH|d IH|d IH|d IH|d IH|d IH|d IH|d IH];
    cbn [NilEmpty.string_of_uint append Json.span_digits];
    try (change (Json.is_digit _) with true; cbv iota; now rewrite IH).
  destruct tail as [|c t]; [reflexivity|].
  cbn [follows] in F. cbn [Json.span_digits]. unfold Json.is_digit.
  destruct (Z.eqb_spec (Py.code c) 44) as [E|_];
    [rewrite E; reflexivity|].
  destruct (Z.eqb_spec (Py.code c) 10) as [E|_];
    [rewrite E; reflexivity | discriminate F].
Qed.

Lemma to_uint_head (p : positive) :
  exists c d,
    NilEmpty.string_of_uint (Pos.to_uint p)
    = String c (NilEmpty.string_of_uint d)
    /\ 49 <= Py.code c <= 57.
Proof.
  pose proof (DecimalPos.Unsigned.to_of (Pos.to_uint p)) as N.
  rewrite DecimalPos.Unsigned.of_to in N. cbn [N.to_uint] in N.
  pose proof (DecimalPos.Unsigned.to_uint_nonzero p) as Z0.
  pose proof (DecimalPos.Unsigned.to_uint_nonnil p) as Z1.
  destruct (Pos.to_uint p) as [|d|d|d|d|d|d|d|d|d|d] eqn:E;
    [contradiction | |
     eexists; exists d; split; [reflexivity | vm_compute; split; discriminate]..].
  exfalso. unfold Decimal.unorm in N. cbn [Decimal.nzhead] in N.
  destruct (Decimal.nzhead d) eqn:H; try discriminate N.
  - injection N as ->. now apply Z0.
  - now apply DecimalFacts.nzhead_nonzero in H.
Qed.

Lemma follows_no_fraction (tail : string) :
  follows tail = true ->
  Json.scan_frac tail = ("", tail) /\ Json.scan_exp tail = ("", tail).
Proof.
  destruct tail as [|c t]; [now split|]. cbn [follows]. intros F.
  unfold Json.scan_frac, Json.scan_exp.
  destruct (Z.eqb_spec (Py.code c) 44) as [E|_]; [rewrite E; now split|].
  destruct (Z.eqb_spec (Py.code c) 10) as [E|_];
    [rewrite E; now split | discriminate F].
Qed.

Lemma match_number_digits (c : ascii) (d : Decimal.uint) (tail : string) :
  49 <= Py.code c <= 57 ->
  follows tail = true ->
  Json.scan_int (String c (NilEmpty.string_of_uint d ++ tail))
  = Some (String c (NilEmpty.string_of_uint d), tail).
Proof.
  intros C F. unfold Json.scan_int.
  destruct (Z.eqb_spec (Py.code c) 48) as [E|_]; [lia|].
  unfold Json.is_digit.
  destruct (Z.leb_spec 48 (Py.code c)); [|lia].
  destruct (Z.leb_spec (Py.code c) 57); [|lia].
  cbn [andb]. now rewrite span_digits_uint.
Qed.

(** An integer as Python prints it is read back as that integer. *)
Lemma match_number_int (n : Z) (tail : string) :
  follows tail = true ->
  Json.match_number (int_repr n ++ tail) = Some (JInt n, tail).
Proof.
  intros F. destruct (follows_no_fraction tail F) as [Fr Ex].
  unfold int_repr, Json.match_number.
  destruct n as [|p|p]; cbn [Z.to_int NilEmpty.string_of_int].
  - cbn [NilEmpty.string_of_uint append Json.sign_split].
    change (Py.code "0" =? 45) with false. cbv iota.
    cbn [Json.scan_int]. change (Py.code "0" =? 48) with true. cbv iota.
    now rewrite Fr, Ex.
  - destruct (to_uint_head p) as (c & d & E & C).
    pose proof (digits_value_of_uint (Pos.to_uint p)) as V.
    rewrite DecimalPos.Unsigned.of_to in V. rewrite E in V |- *.
    cbn [append Json.sign_split].
    destruct (Z.eqb_spec (Py.code c) 45) as [E45|_]; [lia|].
    rewrite (match_number_digits c d tail C F), Fr, Ex.
    now rewrite V.
  - destruct (to_uint_head p) as (c & d & E & C).
    pose proof (digits_value_of_uint (Pos.to_uint p)) as V.
    rewrite DecimalPos.Unsigned.of_to in V. rewrite E in V |- *.
    cbn [append Json.sign_split].
    change (Py.code "-" =? 45) with true. cbv iota.
    rewrite (match_number_digits c d tail C F), Fr, Ex.
    now rewrite V.
Qed.

(** *** Strings *)

Lemma concat_empty_cons (x : string) (r : list string) :
  String.concat "" (x :: r) = x ++ String.concat "" r.
Proof.
  destruct r as [|y r]; cbn [String.concat].
  - now rewrite append_empty_r.
  - reflexivity.
Qed.

Lemma scan_encoded_chars (s : list Z) (t : string) :
  forallb valid_code s = true ->
  Json.scan_string_from Json.Plain
    (String.concat "" (map escape_char s) ++ Py.dq ++ t)
  = Some (s, t).
Proof.
  induction s as [|n s IH]; cbn [map forallb]; intros V.
  - reflexivity.
  - apply andb_true_iff in V. destruct V as [V1 V2].
    rewrite concat_empty_cons, append_assoc.
    rewrite (scan_escaped_char n _ V1), (IH V2). reflexivity.
Qed.

(** A string as [json.dump] writes it is read back as that string. *)
Lemma scan_encoded_string (s : list Z) (t : string) :
  forallb valid_code s = true ->
  exists body,
    encode_string s ++ t = String Py.dquote body
    /\ Json.scan_string body = Some (s, t).
Proof.
  intros V. unfold encode_string.
  exists (String.concat "" (map escape_char s) ++ Py.dq ++ t). split.
  - now rewrite !append_assoc.
  - now apply scan_encoded_chars.
Qed.

Lemma valid_code_ustr (s : string) : forallb valid_code (Json.ustr s) = true.
Proof.
  unfold Json.ustr. induction s as [|c s IH]; [reflexivity|].
  cbn [list_ascii_of_string map forallb]. rewrite IH, andb_true_r.
  unfold valid_code, Json.is_high, Py.code.
  pose proof (nat_ascii_bounded c) as B.
  repeat rewrite andb_true_iff. rewrite negb_true_iff, andb_false_iff.
  repeat split; [apply Z.leb_le; lia | apply Z.ltb_lt; lia|].
  left. apply Z.leb_gt. lia.
Qed.

(** *** Indentation *)

Lemma skip_ws_spaces (k : nat) (s : string) :
  Json.skip_ws (spaces k ++ s) = Json.skip_ws s.
Proof.
  induction k as [|k IH]; [reflexivity|]. exact IH.
Qed.

Lemma skip_ws_indent (k : nat) (s : string) :
  Json.skip_ws (newline_indent k ++ s) = Json.skip_ws s.
Proof.
  unfold newline_indent. rewrite append_assoc.
  change (Py.nl ++ spaces (2 * k) ++ s)
    with (String Py.lf (spaces (2 * k) ++ s)).
  cbn [Json.skip_ws]. change (Json.is_ws Py.lf) with true. cbv iota.
  apply skip_ws_spaces.
Qed.

Lemma follows_indent (k : nat) (s : string) :
  follows (newline_indent k ++ s) = true.
Proof.
  reflexivity.
Qed.

(** *** Values *)

Lemma key_eqb_sym (a b : list Z) : Json.key_eqb a b = Json.key_eqb b a.
Proof.
  revert b. induction a as [|x a IH]; intros [|y b]; cbn [Json.key_eqb];
    try reflexivity.
  now rewrite Z.eqb_sym, IH.
Qed.

Lemma dict_set_fresh (k : list Z) (v : json) (d : list (list Z * json)) :
  existsb (Json.key_eqb k) (map fst d) = false ->
  Json.dict_set k v d = (d ++ [(k, v)])%list.
Proof.
  induction d as [|[k' v'] d IH]; cbn [map fst existsb Json.dict_set];
    [reflexivity|].
  intros H. apply orb_false_iff in H. destruct H as [H1 H2].
  now rewrite H1, (IH H2).
Qed.

Lemma concat_head (sep x : string) (r : list string) :
  exists rest, String.concat sep (x :: r) = x ++ rest.
Proof.
  destruct r as [|y r]; cbn [String.concat].
  - exists "". now rewrite append_empty_r.
  - now eexists.
Qed.

Lemma int_repr_head (n : Z) (t : string) :
  exists q r,
    int_repr n ++ t = String q r
    /\ (Py.code q = 45 \/ 48 <= Py.code q <= 57).
Proof.
  unfold int_repr. destruct n as [|p|p]; cbn [Z.to_int NilEmpty.string_of_int].
  - eexists. eexists. split; [reflexivity|]. right. vm_compute.
    split; discriminate.
  - destruct (to_uint_head p) as (c & d & E & C). rewrite E.
    eexists. eexists. split; [reflexivity|]. right. lia.
  - eexists. eexists. split; [reflexivity|]. now left.
Qed.

Section RoundTrip.

Variable float_repr : string -> string.

(** What [json.dump] writes for a value starts with a character that is
    neither white space nor a closing bracket. *)
Lemma dumps_head (level : nat) (v : json) (t : string) :
  canonical v = true ->
  exists q r,
    dumps float_repr level v ++ t = String q r
    /\ Json.is_ws q = false /\ (Py.code q =? 93) = false.
Proof.
  intros C. destruct v as [|[|]|n|l|s|[|x items]|[|kv pairs]];
    try discriminate C;
    try (eexists; eexists; split; [reflexivity | split; reflexivity]).
  destruct (int_repr_head n t) as (q & r & E & H).
  exists q, r. split; [exact E|]. unfold Json.is_ws. cbv zeta.
  destruct (Z.eqb_spec (Py.code q) 32); [lia|].
  destruct (Z.eqb_spec (Py.code q) 9); [lia|].
  destruct (Z.eqb_spec (Py.code q) 10); [lia|].
  destruct (Z.eqb_spec (Py.code q) 13); [lia|].
  destruct (Z.eqb_spec (Py.code q) 93); [lia|].
  now split.
Qed.

Lemma skip_ws_value (level : nat) (v : json) (t : string) :
  canonical v = true ->
  Json.skip_ws (dumps float_repr level v ++ t) = dumps float_repr level v ++ t.
Proof.
  intros C. destruct (dumps_head level v t C) as (q & r & E & W & _).
  rewrite E. cbn [Json.skip_ws]. now rewrite W.
Qed.

Lemma scan_once_int (n : Z) (tail : string) (f : nat) :
  follows tail = true ->
  Json.scan_once (S f) (int_repr n ++ tail) = Some (JInt n, tail).
Proof.
  intros F. pose proof (match_number_int n tail F) as M.
  destruct (int_repr_head n tail) as (q & r & E & H).
  rewrite E in M |- *. cbn [Json.scan_once].
  destruct (Z.eqb_spec (Py.code q) 34); [lia|].
  destruct (Z.eqb_spec (Py.code q) 123); [lia|].
  destruct (Z.eqb_spec (Py.code q) 91); [lia|].
  unfold Json.scan_atom, Json.lit_value. cbn [Json.match_lit].
  destruct (Ascii.eqb_spec "n" q) as [<-|_];
    [change (Py.code "n") with 110 in H; lia|].
  destruct (Ascii.eqb_spec "t" q) as [<-|_];
    [change (Py.code "t") with 116 in H; lia|].
  destruct (Ascii.eqb_spec "f" q) as [<-|_];
    [change (Py.code "f") with 102 in H; lia|].
  cbn [Json.first_of]. now rewrite M.
Qed.

Lemma array_loop (level : nat) (items : list json) :
  Forall (reads_back float_repr) items ->
  forallb canonical items = true ->
  items <> [] ->
  forall acc tail f,
    (2 * String.length
           (String.concat ("," ++ newline_indent (S level))
              (map (dumps float_repr (S level)) items)
            ++ newline_indent level ++ "]" ++ tail) + 2 <= f)%nat ->
    Json.array_items f
      (String.concat ("," ++ newline_indent (S level))
         (map (dumps float_repr (S level)) items)
       ++ newline_indent level ++ "]" ++ tail) acc
    = Some (JArr (acc ++ items), tail).
Proof.
  induction items as [|x r IH]; intros A C N acc tail f B; [contradiction|].
  inversion A as [|? ? Hx Hr]; subst.
  cbn [forallb] in C. apply andb_true_iff in C. destruct C as [Cx Cr].
  destruct f as [|f]; [lia|]. cbn [Json.array_items].
  destruct r as [|y r].
  - cbn [map String.concat] in B |- *.
    rewrite (Hx Cx (S level) _ f (follows_indent _ _)) by lia.
    rewrite skip_ws_indent. reflexivity.
  - set (sep := "," ++ newline_indent (S level)) in *.
    assert (E : String.concat sep (map (dumps float_repr (S level)) (x :: y :: r))
                ++ newline_indent level ++ "]" ++ tail
                = dumps float_repr (S level) x
                  ++ String ","
                       (newline_indent (S level)
                        ++ String.concat sep
                             (map (dumps float_repr (S level)) (y :: r))
                        ++ newline_indent level ++ "]" ++ tail)).
    { cbn [map String.concat]. unfold sep. now rewrite !append_assoc. }
    rewrite E in B |- *. rewrite length_append in B. cbn [String.length] in B.
    rewrite (Hx Cx (S level) (String "," _) f eq_refl)
      by (rewrite length_append; cbn [String.length]; lia).
    cbn [Json.skip_ws]. change (Json.is_ws ",") with false. cbv iota.
    change (Py.code "," =? 93) with false.
    change (Py.code "," =? 44) with true. cbv iota.
    rewrite skip_ws_indent.
    rewrite length_append in B.
    assert (S1 : Json.skip_ws
                   (String.concat sep
                      (map (dumps float_repr (S level)) (y :: r))
                    ++ newline_indent level ++ "]" ++ tail)
                 = String.concat sep
                     (map (dumps float_repr (S level)) (y :: r))
                   ++ newline_indent level ++ "]" ++ tail).
    { cbn [map]. destruct (concat_head sep (dumps float_repr (S level) y)
                             (map (dumps float_repr (S level)) r))
        as (rest & R).
      rewrite R, append_assoc. apply skip_ws_value.
      cbn [forallb] in Cr. now apply andb_true_iff in Cr. }
    rewrite S1.
    rewrite (IH Hr Cr ltac:(discriminate) (acc ++ [x])%list tail f) by lia.
    now rewrite <- app_assoc.
Qed.

Lemma object_loop (level : nat) (pairs : list (list Z * json)) :
  Forall (fun kv => reads_back float_repr (snd kv)) pairs ->
  forallb (fun kv => forallb valid_code (fst kv) && canonical (snd kv)) pairs
  = true ->
  distinct_keys (map fst pairs) = true ->
  pairs <> [] ->
  forall acc tail f body,
    (forall k, In k (map fst pairs) ->
               existsb (Json.key_eqb k) (map fst acc) = false) ->
    String.concat ("," ++ newline_indent (S level))
      (map (fun kv => encode_string (fst kv) ++ ": "
                      ++ dumps float_repr (S level) (snd kv)) pairs)
    ++ newline_indent level ++ "}" ++ tail
    = String Py.dquote body ->
    (2 * String.length body + 1 <= f)%nat ->
    Json.object_items f body acc = Some (JObj (acc ++ pairs), tail).
Proof.
  set (sep := "," ++ newline_indent (S level)).
  set (member := fun kv : list Z * json =>
                   encode_string (fst kv) ++ ": "
                   ++ dumps float_repr (S level) (snd kv)).
  induction pairs as [|[k v] r IH]; intros A C D N acc tail f body Fr E B;
    [contradiction|].
  inversion A as [|? ? Hv Hr]; subst. cbn [snd] in Hv.
  cbn [forallb fst snd] in C. apply andb_true_iff in C.
  destruct C as [C Cr]. apply andb_true_iff in C. destruct C as [Ck Cv].
  cbn [map fst distinct_keys] in D. apply andb_true_iff in D.
  destruct D as [Dk Dr]. apply negb_true_iff in Dk.
  destruct f as [|f]; [lia|]. cbn [Json.object_items].
  assert (Fresh : Json.dict_set k v acc = (acc ++ [(k, v)])%list).
  { apply dict_set_fresh. apply Fr. now left. }
  assert (Fr' : forall k', In k' (map fst r) ->
                  existsb (Json.key_eqb k') (map fst (acc ++ [(k, v)])) = false).
  { intros k' I. rewrite map_app, existsb_app. cbn [map fst existsb].
    rewrite (Fr k') by (now right). rewrite key_eqb_sym.
    cbn [orb]. rewrite orb_false_r.
    destruct (Json.key_eqb k k') eqn:K; [|reflexivity].
    rewrite <- Dk. symmetry. apply existsb_exists. now exists k'. }
  destruct r as [|p2 r].
  - assert (E' : String.concat sep (map member [(k, v)])
                 ++ newline_indent level ++ "}" ++ tail
                 = String Py.dquote
                     (String.concat "" (map escape_char k) ++ Py.dq
                      ++ String ":" (String " "
                           (dumps float_repr (S level) v
                            ++ newline_indent level ++ "}" ++ tail)))).
    { cbn [map String.concat]. unfold member, encode_string. cbn [fst snd].
      now rewrite !append_assoc. }
    rewrite E' in E.
    assert (Eb : body = String.concat "" (map escape_char k) ++ Py.dq
                        ++ String ":" (String " "
                             (dumps float_repr (S level) v
                              ++ newline_indent level ++ "}" ++ tail)))
      by congruence.
    clear E E'. subst body. unfold Json.scan_string.
    rewrite (scan_encoded_chars k _ Ck).
    cbn [Json.skip_ws]. change (Json.is_ws ":") with false. cbv iota.
    change (Py.code ":" =? 58) with true. cbv iota.
    cbn [Json.skip_ws]. change (Json.is_ws " ") with true. cbv iota.
    rewrite (skip_ws_value (S level) v _ Cv).
    rewrite !length_append in B. cbn [String.length] in B.
    rewrite (Hv Cv (S level) _ f (follows_indent _ _))
      by (rewrite !length_append; cbn [String.length];
          rewrite !length_append in B; cbn [String.length] in B; lia).
    cbv zeta. rewrite skip_ws_indent, Fresh. reflexivity.
  - assert (E' : String.concat sep (map member ((k, v) :: p2 :: r))
                 ++ newline_indent level ++ "}" ++ tail
                 = String Py.dquote
                     (String.concat "" (map escape_char k) ++ Py.dq
                      ++ String ":" (String " "
                           (dumps float_repr (S level) v
                            ++ String ","
                                 (newline_indent (S level)
                                  ++ String.concat sep (map member (p2 :: r))
                                  ++ newline_indent level ++ "}" ++ tail))))).
    { cbn [map String.concat]. unfold sep at 1. unfold member at 1.
      unfold encode_string at 1. cbn [fst snd].
      now rewrite !append_assoc. }
    rewrite E' in E.
    assert (Eb : body = String.concat "" (map escape_char k) ++ Py.dq
                        ++ String ":" (String " "
                             (dumps float_repr (S level) v
                              ++ String ","
                                   (newline_indent (S level)
                                    ++ String.concat sep
                                         (map member (p2 :: r))
                                    ++ newline_indent level ++ "}" ++ tail))))
      by congruence.
    clear E E'. subst body. unfold Json.scan_string.
    rewrite (scan_encoded_chars k _ Ck).
    cbn [Json.skip_ws]. change (Json.is_ws ":") with false. cbv iota.
    change (Py.code ":" =? 58) with true. cbv iota.
    cbn [Json.skip_ws]. change (Json.is_ws " ") with true. cbv iota.
    rewrite (skip_ws_value (S level) v _ Cv).
    rewrite !length_append in B. cbn [String.length] in B.
    rewrite length_append in B. cbn [String.length] in B.
    rewrite (Hv Cv (S level) (String "," _) f eq_refl)
      by (rewrite length_append; cbn [String.length]; lia).
    cbv zeta. cbn [Json.skip_ws]. change (Json.is_ws ",") with false.
    cbv iota. change (Py.code "," =? 125) with false.
    change (Py.code "," =? 44) with true. cbv iota.
    rewrite skip_ws_indent, Fresh.
    destruct p2 as [k2 v2].
    assert (E2 : exists body2,
               String.concat sep (map member ((k2, v2) :: r))
               ++ newline_indent level ++ "}" ++ tail
               = String Py.dquote body2).
    { cbn [map]. destruct (concat_head sep (member (k2, v2)) (map member r))
        as (rest & R).
      rewrite R. unfold member at 1, encode_string. cbn [fst snd].
      rewrite !append_assoc. now eexists. }
    destruct E2 as (body2 & E2). rewrite E2.
    cbn [Json.skip_ws]. change (Json.is_ws Py.dquote) with false. cbv iota.
    change (Py.code Py.dquote =? 34) with true. cbv iota.
    rewrite (IH Hr Cr Dr ltac:(discriminate) (acc ++ [(k, v)])%list tail f
               body2 Fr' E2).
    + now rewrite <- app_assoc.
    + rewrite length_append in B.
      assert (L : String.length (String Py.dquote body2)
                  = String.length
                      (String.concat sep (map member ((k2, v2) :: r))
                       ++ newline_indent level ++ "}" ++ tail))
        by now rewrite E2.
      cbn [String.length] in L. lia.
Qed.

(** A value without floats, bad code points or repeated keys, written
    with an indent of two at any level and followed by a comma, a line
    feed or nothing, is read back as that value. *)
Lemma scan_dumps (v : json) : reads_back float_repr v.
Proof.
  induction v using json_induction; unfold reads_back;
    intros C level tail f F B.
  - destruct f; [lia | reflexivity].
  - destruct f; [lia | destruct b; reflexivity].
  - destruct f; [lia|]. now apply scan_once_int.
  - discriminate C.
  - destruct f; [lia|]. cbn [dumps canonical] in *.
    destruct (scan_encoded_string s tail C) as (body & E & S1).
    rewrite E. cbn [Json.scan_once].
    change (Py.code Py.dquote =? 34) with true. cbv iota. now rewrite S1.
  - destruct f; [lia|]. destruct items as [|x r]; [reflexivity|].
    cbn [canonical] in C.
    remember (String.concat ("," ++ newline_indent (S level))
                (map (dumps float_repr (S level)) (x :: r))
              ++ newline_indent level ++ "]" ++ tail) as X eqn:EX.
    assert (E : dumps float_repr level (JArr (x :: r)) ++ tail
                = String "[" (newline_indent (S level) ++ X)).
    { subst X.
      change (dumps float_repr level (JArr (x :: r)))
        with ("[" ++ newline_indent (S level)
              ++ String.concat ("," ++ newline_indent (S level))
                   (map (dumps float_repr (S level)) (x :: r))
              ++ newline_indent level ++ "]").
      now rewrite !append_assoc. }
    rewrite E in B |- *. cbn [String.length] in B.
    rewrite length_append in B.
    pose proof (array_loop level (x :: r) H C ltac:(discriminate) [] tail f)
      as L.
    rewrite <- EX in L.
    assert (Cx : canonical x = true)
      by (cbn [forallb] in C; now apply andb_true_iff in C).
    assert (HQ : exists q r1, X = String q r1 /\ Json.is_ws q = false
                              /\ (Py.code q =? 93) = false).
    { subst X. cbn [map].
      destruct (concat_head ("," ++ newline_indent (S level))
                  (dumps float_repr (S level) x)
                  (map (dumps float_repr (S level)) r)) as (rest & R).
      rewrite R, append_assoc. now apply dumps_head. }
    destruct HQ as (q & r1 & EQ & W & Q).
    cbn [Json.scan_once].
    change (Py.code "[" =? 34) with false.
    change (Py.code "[" =? 123) with false.
    change (Py.code "[" =? 91) with true. cbv iota.
    rewrite skip_ws_indent. rewrite EQ in L |- *.
    cbn [Json.skip_ws]. rewrite W, Q. apply L.
    rewrite EQ in B. lia.
  - destruct f; [lia|]. destruct pairs as [|[k v] r]; [reflexivity|].
    cbn [canonical] in C. apply andb_true_iff in C. destruct C as [C D].
    remember (String.concat ("," ++ newline_indent (S level))
                (map (fun kv => encode_string (fst kv) ++ ": "
                                ++ dumps float_repr (S level) (snd kv))
                   ((k, v) :: r))
              ++ newline_indent level ++ "}" ++ tail) as X eqn:EX.
    assert (E : dumps float_repr level (JObj ((k, v) :: r)) ++ tail
                = String "{" (newline_indent (S level) ++ X)).
    { subst X.
      change (dumps float_repr level (JObj ((k, v) :: r)))
        with ("{" ++ newline_indent (S level)
              ++ String.concat ("," ++ newline_indent (S level))
                   (map (fun kv => encode_string (fst kv) ++ ": "
                                   ++ dumps float_repr (S level) (snd kv))
                      ((k, v) :: r))
              ++ newline_indent level ++ "}").
      now rewrite !append_assoc. }
    rewrite E in B |- *. cbn [String.length] in B.
    rewrite length_append in B.
    assert (HQ : exists body, X = String Py.dquote body).
    { subst X. cbn [map].
      destruct (concat_head ("," ++ newline_indent (S level))
                  (encode_string (fst (k, v)) ++ ": "
                   ++ dumps float_repr (S level) (snd (k, v)))
                  (map (fun kv => encode_string (fst kv) ++ ": "
                                  ++ dumps float_repr (S level) (snd kv)) r))
        as (rest & R).
      rewrite R. unfold encode_string.
      rewrite !append_assoc. now eexists. }
    destruct HQ as (body & EQ).
    pose proof (object_loop level ((k, v) :: r) H C D ltac:(discriminate)
                  [] tail f body (fun _ _ => eq_refl)) as L.
    rewrite <- EX in L. specialize (L EQ).
    cbn [Json.scan_once].
    change (Py.code "{" =? 34) with false.
    change (Py.code "{" =? 123) with true. cbv iota.
    rewrite skip_ws_indent, EQ.
    cbn [Json.skip_ws]. change (Json.is_ws Py.dquote) with false. cbv iota.
    change (Py.code Py.dquote =? 34) with true. cbv iota.
    apply L. rewrite EQ in B. cbn [String.length] in B. lia.
Qed.

(** [json.loads] of what [json.dump] writes. *)
Lemma loads_dumps (v : json) :
  canonical v = true -> Json.loads (dumps float_repr 0 v) = Some v.
Proof.
  intros C. apply (loads_fuel_enough _ (Json.fuel_for (dumps float_repr 0 v))
                     v "").
  - pose proof (skip_ws_value 0 v "" C) as S1.
    pose proof (scan_dumps v C 0%nat "" (Json.fuel_for (dumps float_repr 0 v))
                  eq_refl) as S2.
    rewrite append_empty_r in S1, S2. rewrite S1. apply S2.
    unfold Json.fuel_for. lia.
  - reflexivity.
Qed.

End RoundTrip.

Lemma canonical_result_dict (r : outreach_result) :
  canonical (messages r) = true -> canonical (result_dict r) = true.
Proof.
  intros C. unfold result_dict. cbn [canonical forallb fst snd map].
  rewrite !valid_code_ustr, C. reflexivity.
Qed.

(** X16: the file [save_output] writes is read back by [json.loads] as
    the record it was given, when the messages hold no float, no high
    surrogate and no object with a key twice. *)
Theorem saved_file_reads_back
    (float_repr : string -> string) (fs fs' : filesystem)
    (r : outreach_result) (output_file : option string) (p : string) :
  canonical (messages r) = true ->
  save_output float_repr fs r output_file = (fs', Ok p) ->
  exists content,
    stat fs' p = Some (File content)
    /\ Json.loads content = Some (result_dict r).
Proof.
  intros C S. apply save_output_result in S. destruct S as (_ & _ & S & _).
  exists (dumps float_repr 0 (result_dict r)). split; [exact S|].
  apply loads_dumps. now apply canonical_result_dict.
Qed.

Lemma saved_file_reads_back_witness :
  exists fs' content,
    save_output (fun l => l) empty_disk sample_result None
    = (fs', Ok "tools/outreach/sean-forbes-d.json")
    /\ stat fs' "tools/outreach/sean-forbes-d.json" = Some (File content)
    /\ Json.loads content = Some (result_dict sample_result).
Proof.
  destruct (save_output (fun l => l) empty_disk sample_result None)
    as [fs' [p|e]] eqn:E; [|vm_compute in E; discriminate E].
  assert (P : p = "tools/outreach/sean-forbes-d.json").
  { apply save_output_result in E. destruct E as (P & _). exact P. }
  subst p.
  destruct (saved_file_reads_back (fun l => l) empty_disk fs' sample_result
              None "tools/outreach/sean-forbes-d.json" eq_refl E)
    as (content & S & L).
  exists fs', content. split; [reflexivity|]. split; assumption.
Defined.

(** ** A run of [main] that ends well *)

Lemma generate_and_save_saved
    (float_repr : string -> string) (w : world) (fs : filesystem)
    (target_name persona_code plat : string)
    (bio recent_content output : option string) (quiet : bool) (p : string) :
  ending (generate_and_save float_repr w fs target_name persona_code plat
            bio recent_content output quiet) = Saved p ->
  exists req text r,
    sent (generate_and_save float_repr w fs target_name persona_code plat
            bio recent_content output quiet) = [req]
    /\ env_api_key w = Some (req_api_key req)
    /\ service w req = Reply text
    /\ snd (parse_response (Py.strip text)) = Ok (messages r)
    /\ target r = target_name
    /\ persona r = persona_code
    /\ In persona_code (keys PERSONAS)
    /\ p = output_path r output
    /\ stat (disk (generate_and_save float_repr w fs target_name
                     persona_code plat bio recent_content output quiet)) p
       = Some (File (dumps float_repr 0 (result_dict r)))
    /\ (quiet = false -> exists pairs, messages r = JObj pairs).
Proof.
  unfold generate_and_save.
  destruct (generate_cases w target_name persona_code plat bio
              recent_content None)
    as [(_ & _ & G)|(key & N & _ & B & [[_ G]|(info & req & L & Rq & G)])];
    try (rewrite G; discriminate).
  destruct G as [(msg & _ & G)|[(text & e & _ & _ & G)|(text & m & Sv & Pm & G)]];
    try (rewrite G; discriminate).
  rewrite G.
  match goal with
  | |- context [save_output float_repr fs ?r0 output] =>
      set (r := r0);
      destruct (save_output float_repr fs r output) as [fs' [o|e]] eqn:S
  end; [|discriminate].
  assert (I : In persona_code (keys PERSONAS)).
  { destruct (in_dec string_dec persona_code (keys PERSONAS)) as [I|M];
      [exact I|]. apply lookup_absent in M. congruence. }
  apply save_output_result in S. destruct S as (P & _ & St & _).
  assert (K : env_api_key w = Some (req_api_key req))
    by (rewrite Rq; cbn [req_api_key]; now apply B).
  destruct quiet.
  - cbn [ending sent disk]. intros E. injection E as <-.
    exists req, text, r.
    split; [reflexivity|]. split; [exact K|]. split; [exact Sv|].
    split; [exact Pm|]. split; [reflexivity|]. split; [reflexivity|].
    split; [exact I|]. split; [exact P|]. split; [exact St|].
    discriminate.
  - unfold print_result. destruct (messages r) as [| | | | | |pairs] eqn:M;
      try discriminate.
    cbn [ending sent disk]. intros E. injection E as <-.
    exists req, text, r.
    split; [reflexivity|]. split; [exact K|]. split; [exact Sv|].
    split; [exact Pm|]. split; [reflexivity|]. split; [reflexivity|].
    split; [exact I|]. split; [exact P|]. split; [exact St|].
    intros _. now exists pairs.
Qed.

(** X17: a run of [main] that ends with the messages saved has sent one
    request, with the credential of the environment and for one of the
    personas; the service answered it with a text that was parsed, and
    the file named at the end holds the record with the parsed messages;
    unless [--quiet] was given, these messages are an object. *)
Theorem saved_run_sent_one_request_and_wrote_record
    (float_repr : string -> string) (w : world)
    (load_config : string -> result target_config)
    (fs : filesystem) (a : args) (p : string) :
  ending (main float_repr w load_config fs a) = Saved p ->
  exists req text r,
    sent (main float_repr w load_config fs a) = [req]
    /\ env_api_key w = Some (req_api_key req)
    /\ service w req = Reply text
    /\ snd (parse_response (Py.strip text)) = Ok (messages r)
    /\ In (persona r) (keys PERSONAS)
    /\ p = output_path r (arg_output a)
    /\ stat (disk (main float_repr w load_config fs a)) p
       = Some (File (dumps float_repr 0 (result_dict r)))
    /\ (arg_quiet a = false -> exists pairs, messages r = JObj pairs).
Proof.
  unfold main.
  assert (G : forall tn pc pl bio rc,
    ending (generate_and_save float_repr w fs tn pc pl bio rc
              (arg_output a) (arg_quiet a)) = Saved p ->
    exists req text r,
      sent (generate_and_save float_repr w fs tn pc pl bio rc
              (arg_output a) (arg_quiet a)) = [req]
      /\ env_api_key w = Some (req_api_key req)
      /\ service w req = Reply text
      /\ snd (parse_response (Py.strip text)) = Ok (messages r)
      /\ In (persona r) (keys PERSONAS)
      /\ p = output_path r (arg_output a)
      /\ stat (disk (generate_and_save float_repr w fs tn pc pl bio rc
                       (arg_output a) (arg_quiet a))) p
         = Some (File (dumps float_repr 0 (result_dict r)))
      /\ (arg_quiet a = false -> exists pairs, messages r = JObj pairs)).
  { intros tn pc pl bio rc E.
    destruct (generate_and_save_saved _ _ _ _ _ _ _ _ _ _ _ E)
      as (req & text & r & S & K & Sv & Pm & _ & Pe & I & P & St & Q).
    exists req, text, r. rewrite Pe. tauto. }
  destruct (arg_config a) as [[|c0 c]|].
  - destruct (arg_name a) as [[|n0 n]|]; try discriminate.
    destruct (arg_persona a) as [[|p0 pc]|]; try discriminate.
    destruct (arg_platform a) as [[|l0 l]|]; try discriminate.
    apply G.
  - destruct (load_config (String c0 c)) as [cfg|e]; [apply G | discriminate].
  - destruct (arg_name a) as [[|n0 n]|]; try discriminate.
    destruct (arg_persona a) as [[|p0 pc]|]; try discriminate.
    destruct (arg_platform a) as [[|l0 l]|]; try discriminate.
    apply G.
Qed.

Lemma saved_run_sent_one_request_and_wrote_record_witness :
  ending (main (fun l => l) ready_world no_config empty_disk full_arguments)
  = Saved "tools/outreach/sean-forbes-d.json"
  /\ exists req r,
       sent (main (fun l => l) ready_world no_config empty_disk
               full_arguments) = [req]
       /\ stat (disk (main (fun l => l) ready_world no_config empty_disk
                        full_arguments))
            "tools/outreach/sean-forbes-d.json"
          = Some (File (dumps (fun l => l) 0 (result_dict r))).
Proof.
  assert (E : ending (main (fun l => l) ready_world no_config empty_disk
                        full_arguments)
              = Saved "tools/outreach/sean-forbes-d.json")
    by (vm_compute; reflexivity).
  split; [exact E|].
  destruct (saved_run_sent_one_request_and_wrote_record _ _ _ _ _ _ E)
    as (req & text & r & S & _ & _ & _ & _ & _ & St & _).
  exists req, r. split; [exact S | exact St].
Defined.
